(** * Detected-plane mesh synchronisation of the WebXR article series

    A shallow embedding of [createPlaneMeshesFromXrPlane] and [initPolygon]
    of [src/index_6.ts] (the same code is repeated in the later parts).

    The TypeScript class keeps a sparse array [_planes] of meshes indexed by
    the detector's plane id, and four observer callbacks mutate it.  Meshes
    and materials are engine objects with identity, so they live in a store
    and are named by reference; the callbacks are written in a small
    state-and-exception monad over that store.

    The modules [HitTest], [Features] and [Door] embed the other callbacks of
    the series in the same way: the hit-test marker, the enabling of the
    features and the subscriptions that depend on it, and the placing and
    opening of the door of part 9 ([src/index_9.ts]). *)

From Stdlib Require Import QArith.
From Stdlib Require Import Ascii String DecimalString.
From stdpp Require Import base decidable option list numbers strings.

Local Close Scope Q_scope.
Local Open Scope nat_scope.

(** ** Engine value types *)

(** JavaScript numbers are only copied around by this code, never computed
    with; they are represented by rationals so that the literals [0.35] and
    [0.01] of the source can be written down. *)
Definition number := Q.

#[global] Instance positive_eq_dec' : EqDecision positive := Pos.eq_dec.
#[global] Instance Q_eq_dec : EqDecision Q.
Proof. solve_decision. Defined.

Record Vector2 := mkVector2 { v2x : number; v2y : number }.
Record Vector3 := mkVector3 { vx : number; vy : number; vz : number }.
Record Quaternion := mkQuaternion { qx : number; qy : number; qz : number; qw : number }.
Record Color3 := mkColor3 { cr : number; cg : number; cb : number }.

#[global] Instance Vector2_eq_dec : EqDecision Vector2.
Proof. solve_decision. Defined.
#[global] Instance Vector3_eq_dec : EqDecision Vector3.
Proof. solve_decision. Defined.
#[global] Instance Quaternion_eq_dec : EqDecision Quaternion.
Proof. solve_decision. Defined.
#[global] Instance Color3_eq_dec : EqDecision Color3.
Proof. solve_decision. Defined.

(** [new Quaternion()] is the identity rotation, [new Vector3(1,1,1)] the
    initial scaling of a mesh and the zero vector its initial position. *)
Definition Quaternion_new : Quaternion := mkQuaternion 0%Q 0%Q 0%Q 1%Q.
Definition Vector3_One : Vector3 := mkVector3 1%Q 1%Q 1%Q.
Definition Vector3_Zero : Vector3 := mkVector3 0%Q 0%Q 0%Q.
Definition Color3_White : Color3 := mkColor3 1%Q 1%Q 1%Q.

(** A placement matrix is represented by the scale, rotation and translation
    it is composed of; [Matrix.decompose(scale, rotation, translation)]
    writes these three components into its out-parameters. *)
Record Matrix := mkMatrix {
  m_scale : Vector3;
  m_rotation : Quaternion;
  m_translation : Vector3
}.

Definition Matrix_decompose (m : Matrix) : Vector3 * Quaternion * Vector3 :=
  (m_scale m, m_rotation m, m_translation m).

(** ** The detector's plane record ([IWebXRPlane]) *)

Inductive XRPlaneOrientation := horizontal | vertical.

#[global] Instance XRPlaneOrientation_eq_dec : EqDecision XRPlaneOrientation.
Proof. solve_decision. Defined.

(** [polygonDefinition] is a [Vector3[]] whose entries may be missing
    ([null]/[undefined]), which is what [some(p => !p)] tests for.  The field
    [id] of the source is called [plane_id] here ([id] is the identity
    function). *)
Record IWebXRPlane := mkPlane {
  plane_id : nat;
  polygonDefinition : list (option Vector3);
  transformationMatrix : Matrix;
  xrPlane_orientation : XRPlaneOrientation
}.

(** ** Engine objects: materials and meshes *)

Abbreviation ref := nat (only parsing).

Record StandardMaterial := mkMaterial {
  alpha : number;
  diffuseColor : Color3;
  material_isDisposed : bool
}.

(** What [new StandardMaterial(name, scene)] constructs. *)
Definition StandardMaterial_new : StandardMaterial :=
  {| alpha := 1%Q; diffuseColor := Color3_White; material_isDisposed := false |}.

Record Mesh := mkMesh {
  name : XRPlaneOrientation;          (* first argument of PolygonMeshBuilder *)
  contour : list Vector2;             (* second argument of PolygonMeshBuilder *)
  updatable : bool;                   (* build(updatable, depth) *)
  depth : number;
  hasNormals : bool;                  (* createNormals was called *)
  material : option ref;
  rotationQuaternion : option Quaternion;
  scaling : Vector3;
  position : Vector3;
  checkCollisions : bool;
  receiveShadows : bool;
  isDisposed : bool
}.

(** What [new PolygonMeshBuilder(name, contour, scene).build(updatable, depth)]
    returns: the triangulated, extruded polygon with the engine's default
    transform and flags.  The triangulation itself is the engine's; the mesh
    records what it was built from. *)
Definition PolygonMeshBuilder_build
    (nm : XRPlaneOrientation) (pts : list Vector2) (upd : bool) (d : number) : Mesh :=
  {| name := nm; contour := pts; updatable := upd; depth := d;
     hasNormals := false; material := None; rotationQuaternion := None;
     scaling := Vector3_One; position := Vector3_Zero;
     checkCollisions := false; receiveShadows := false; isDisposed := false |}.

Definition set_hasNormals (b : bool) (m : Mesh) : Mesh :=
  {| name := name m; contour := contour m; updatable := updatable m; depth := depth m;
     hasNormals := b; material := material m;
     rotationQuaternion := rotationQuaternion m; scaling := scaling m;
     position := position m; checkCollisions := checkCollisions m;
     receiveShadows := receiveShadows m; isDisposed := isDisposed m |}.

Definition set_material (k : option ref) (m : Mesh) : Mesh :=
  {| name := name m; contour := contour m; updatable := updatable m; depth := depth m;
     hasNormals := hasNormals m; material := k;
     rotationQuaternion := rotationQuaternion m; scaling := scaling m;
     position := position m; checkCollisions := checkCollisions m;
     receiveShadows := receiveShadows m; isDisposed := isDisposed m |}.

Definition set_rotationQuaternion (q : option Quaternion) (m : Mesh) : Mesh :=
  {| name := name m; contour := contour m; updatable := updatable m; depth := depth m;
     hasNormals := hasNormals m; material := material m;
     rotationQuaternion := q; scaling := scaling m;
     position := position m; checkCollisions := checkCollisions m;
     receiveShadows := receiveShadows m; isDisposed := isDisposed m |}.

Definition set_checkCollisions (b : bool) (m : Mesh) : Mesh :=
  {| name := name m; contour := contour m; updatable := updatable m; depth := depth m;
     hasNormals := hasNormals m; material := material m;
     rotationQuaternion := rotationQuaternion m; scaling := scaling m;
     position := position m; checkCollisions := b;
     receiveShadows := receiveShadows m; isDisposed := isDisposed m |}.

Definition set_receiveShadows (b : bool) (m : Mesh) : Mesh :=
  {| name := name m; contour := contour m; updatable := updatable m; depth := depth m;
     hasNormals := hasNormals m; material := material m;
     rotationQuaternion := rotationQuaternion m; scaling := scaling m;
     position := position m; checkCollisions := checkCollisions m;
     receiveShadows := b; isDisposed := isDisposed m |}.

Definition set_isDisposed (b : bool) (m : Mesh) : Mesh :=
  {| name := name m; contour := contour m; updatable := updatable m; depth := depth m;
     hasNormals := hasNormals m; material := material m;
     rotationQuaternion := rotationQuaternion m; scaling := scaling m;
     position := position m; checkCollisions := checkCollisions m;
     receiveShadows := receiveShadows m; isDisposed := b |}.

(** [decompose] fills the mesh's own [scaling], [rotationQuaternion] and
    [position] objects in place. *)
Definition set_transform (t : Vector3 * Quaternion * Vector3) (m : Mesh) : Mesh :=
  {| name := name m; contour := contour m; updatable := updatable m; depth := depth m;
     hasNormals := hasNormals m; material := material m;
     rotationQuaternion := Some (snd (fst t)); scaling := fst (fst t);
     position := snd t; checkCollisions := checkCollisions m;
     receiveShadows := receiveShadows m; isDisposed := isDisposed m |}.

Definition set_material_isDisposed (b : bool) (k : StandardMaterial) : StandardMaterial :=
  {| alpha := alpha k; diffuseColor := diffuseColor k; material_isDisposed := b |}.

Definition set_alpha (a : number) (k : StandardMaterial) : StandardMaterial :=
  {| alpha := a; diffuseColor := diffuseColor k;
     material_isDisposed := material_isDisposed k |}.

Definition set_diffuseColor (c : Color3) (k : StandardMaterial) : StandardMaterial :=
  {| alpha := alpha k; diffuseColor := c;
     material_isDisposed := material_isDisposed k |}.

(** ** JavaScript arrays with holes

    [_planes: Mesh[]] is written at arbitrary indices, so it is a sparse
    array: a slot is either a hole ([None]) or holds a mesh reference. *)
Abbreviation Array A := (list (option A)) (only parsing).

(** [a[i]]: [undefined] ([None]) for a hole and out of range. *)
Definition Array_get {A} (a : Array A) (i : nat) : option A :=
  mjoin (a !! i).

(** [a[i] = v]: in range the slot is overwritten, out of range the array is
    extended with holes up to [i]. *)
Definition Array_set {A} (a : Array A) (i : nat) (v : A) : Array A :=
  if decide (i < length a) then <[i := Some v]> a
  else a ++ replicate (i - length a) None ++ [Some v].

(** [a.pop()]: removes the last slot and returns its content ([undefined] for
    a hole or when the array is empty). *)
Definition Array_pop {A} (a : Array A) : option A * Array A :=
  (List.last a None, removelast a).

(** The elements [a.forEach] visits: the filled slots, in index order. *)
Definition Array_present {A} (a : Array A) : list A := omap (fun s => s) a.

(** [while (a.pop());] on the reversed array: popping takes its head, and the
    loop stops with the first [undefined] it pops. *)
Fixpoint pop_while_rev {A} (r : list (option A)) : list (option A) :=
  match r with
  | [] => []
  | Some _ :: r' => pop_while_rev r'
  | None :: r' => r'
  end.

Definition pop_while {A} (a : Array A) : Array A :=
  rev (pop_while_rev (rev a)).

(** ** The store and the monad of the callbacks *)

(** [scene_meshes] and [scene_materials] hold every engine object constructed
    so far; a reference is the position of the object.  [_planes] is the
    class field, and [mat] is the [let mat: Nullable<StandardMaterial>] that
    the four callbacks of [createPlaneMeshesFromXrPlane] close over
    ([None] while it is still unassigned). *)
Record World := mkWorld {
  scene_meshes : list Mesh;
  scene_materials : list StandardMaterial;
  _planes : list (option ref);
  mat : option ref
}.

(** The state in which [createPlaneMeshesFromXrPlane] registers the callbacks:
    the constructor has set [this._planes = []] and [mat] is unassigned. *)
Definition World_init : World :=
  {| scene_meshes := []; scene_materials := []; _planes := []; mat := None |}.

(** [TypeError] is what JavaScript throws on a property access on
    [undefined] or [null].  [InvalidReference] belongs to the model only: a
    reference that names no object of the store, which no execution from
    [World_init] produces (see [wf_World]). *)
Inductive Error := TypeError | InvalidReference.

Inductive Completion (A : Type) :=
  | Normal (a : A)
  | Throw (e : Error).
Arguments Normal {A} a.
Arguments Throw {A} e.

(** A callback runs on the current store and either completes or throws;
    what it has written before throwing stays written. *)
Definition JS (A : Type) : Type := World -> Completion A * World.

Definition ret {A} (a : A) : JS A := fun w => (Normal a, w).

Definition bind {A B} (m : JS A) (k : A -> JS B) : JS B :=
  fun w => match m w with
           | (Normal a, w') => k a w'
           | (Throw e, w') => (Throw e, w')
           end.

Definition throw {A} (e : Error) : JS A := fun w => (Throw e, w).
Definition gets {A} (f : World -> A) : JS A := fun w => (Normal (f w), w).
Definition modify (f : World -> World) : JS unit := fun w => (Normal tt, f w).

Declare Scope js_scope.
Delimit Scope js_scope with js.
Notation "x <- m ;; k" := (bind m (fun x => k))
  (at level 20, m at level 99, k at level 200, only parsing) : js_scope.
Notation "m ;; k" := (bind m (fun _ => k))
  (at level 100, k at level 200, only parsing) : js_scope.
Local Open Scope js_scope.

Definition with_meshes (f : list Mesh -> list Mesh) (w : World) : World :=
  {| scene_meshes := f (scene_meshes w); scene_materials := scene_materials w;
     _planes := _planes w; mat := mat w |}.

Definition with_materials (f : list StandardMaterial -> list StandardMaterial)
    (w : World) : World :=
  {| scene_meshes := scene_meshes w; scene_materials := f (scene_materials w);
     _planes := _planes w; mat := mat w |}.

Definition with_planes (f : list (option ref) -> list (option ref)) (w : World) : World :=
  {| scene_meshes := scene_meshes w; scene_materials := scene_materials w;
     _planes := f (_planes w); mat := mat w |}.

Definition with_mat (k : option ref) (w : World) : World :=
  {| scene_meshes := scene_meshes w; scene_materials := scene_materials w;
     _planes := _planes w; mat := k |}.

(** Object construction: the new object gets the next free reference. *)
Definition new_Mesh (m : Mesh) : JS ref :=
  fun w => (Normal (length (scene_meshes w)), with_meshes (fun h => h ++ [m]) w).

Definition new_StandardMaterial : JS ref :=
  fun w => (Normal (length (scene_materials w)),
            with_materials (fun h => h ++ [StandardMaterial_new]) w).

(** Field reads and writes through a reference. *)
Definition read_Mesh (r : ref) : JS Mesh :=
  fun w => match scene_meshes w !! r with
           | Some m => (Normal m, w)
           | None => (Throw InvalidReference, w)
           end.

Definition update_Mesh (r : ref) (f : Mesh -> Mesh) : JS unit :=
  modify (with_meshes (alter f r)).

Definition update_Material (r : ref) (f : StandardMaterial -> StandardMaterial) : JS unit :=
  modify (with_materials (alter f r)).

(** [mesh.dispose(doNotRecurse?, disposeMaterialAndTextures?)] of the engine:
    both parameters default to [false].  Disposing releases the mesh from the
    scene; the material is disposed with it only when the second flag is set,
    and the mesh keeps its [material] property. *)
Definition Mesh_dispose (r : ref)
    (doNotRecurse disposeMaterialAndTextures : option bool) : JS unit :=
  m <- read_Mesh r ;;
  update_Mesh r (set_isDisposed true) ;;
  if default false disposeMaterialAndTextures then
    match material m with
    | Some k => update_Material k (set_material_isDisposed true)
    | None => ret tt
    end
  else ret tt.

(** ** [initPolygon] *)

(** [plane.polygonDefinition.push(plane.polygonDefinition[0])]: element 0 of
    an empty array is [undefined], which is pushed as a missing entry. *)
Definition push_first (pts : list (option Vector3)) : list (option Vector3) :=
  pts ++ [mjoin (head pts)].

(** [plane.polygonDefinition.map((p) => new Vector2(p.x, p.z))]: reading [p.x]
    of a missing entry throws. *)
Fixpoint map_Vector2 (pts : list (option Vector3)) : JS (list Vector2) :=
  match pts with
  | [] => ret []
  | Some p :: rest =>
      vs <- map_Vector2 rest ;;
      ret (mkVector2 (vx p) (vz p) :: vs)
  | None :: _ => throw TypeError
  end.

Definition with_polygonDefinition (pts : list (option Vector3)) (plane : IWebXRPlane)
    : IWebXRPlane :=
  {| plane_id := plane_id plane; polygonDefinition := pts;
     transformationMatrix := transformationMatrix plane;
     xrPlane_orientation := xrPlane_orientation plane |}.

(** The plane record is the detector's object and is passed by reference:
    [initPolygon] returns it as it is left after the call, next to the mesh.
    (When the call throws, the [push] has happened all the same; the
    completion carries no record then.) *)
Definition initPolygon (plane : IWebXRPlane) (mat : option ref)
    : JS (IWebXRPlane * ref) :=
  let plane := with_polygonDefinition (push_first (polygonDefinition plane)) plane in
  pts <- map_Vector2 (polygonDefinition plane) ;;
  polygon <- new_Mesh (PolygonMeshBuilder_build (xrPlane_orientation plane) pts false 0.01%Q) ;;
  update_Mesh polygon (set_hasNormals true) ;;
  match mat with
  | Some k => update_Mesh polygon (set_material (Some k))
  | None => ret tt
  end ;;
  update_Mesh polygon (set_rotationQuaternion (Some Quaternion_new)) ;;
  update_Mesh polygon (set_checkCollisions true) ;;
  update_Mesh polygon (set_receiveShadows true) ;;
  update_Mesh polygon (set_transform (Matrix_decompose (transformationMatrix plane))) ;;
  modify (with_planes (fun a => Array_set a (plane_id plane) polygon)) ;;
  ret (plane, polygon).

(** ** The four callbacks of [createPlaneMeshesFromXrPlane] *)

(** [onPlaneAddedObservable]: [random] is the colour that this call of
    [Color3.Random()] draws. *)
Definition onPlaneAdded (plane : IWebXRPlane) (random : Color3) : JS unit :=
  k <- new_StandardMaterial ;;
  modify (with_mat (Some k)) ;;
  update_Material k (set_alpha 0.35%Q) ;;
  update_Material k (set_diffuseColor random) ;;
  initPolygon plane (Some k) ;;
  ret tt.

(** [plane.polygonDefinition.some(p => !p)] *)
Definition some_missing (pts : list (option Vector3)) : bool :=
  existsb (fun p => match p with None => true | Some _ => false end) pts.

(** [this._planes[plane.id]] followed by a property access: a [TypeError]
    when the slot is [undefined]. *)
Definition planes_at (i : nat) : JS ref :=
  slot <- gets (fun w => Array_get (_planes w) i) ;;
  match slot with
  | Some r => ret r
  | None => throw TypeError
  end.

Definition onPlaneUpdated (plane : IWebXRPlane) : JS unit :=
  r <- planes_at (plane_id plane) ;;
  m <- read_Mesh r ;;
  match material m with
  | Some k =>
      modify (with_mat (Some k)) ;;
      Mesh_dispose r (Some false) (Some false)
  | None => ret tt
  end ;;
  if some_missing (polygonDefinition plane) then ret tt
  else
    k <- gets mat ;;
    initPolygon plane k ;;
    ret tt.

Definition onPlaneRemoved (plane : IWebXRPlane) : JS unit :=
  slot <- gets (fun w => Array_get (_planes w) (plane_id plane)) ;;
  match slot with
  | Some r => Mesh_dispose r None None
  | None => ret tt
  end.

Fixpoint forEach {A} (f : A -> JS unit) (l : list A) : JS unit :=
  match l with
  | [] => ret tt
  | a :: l' => f a ;; forEach f l'
  end.

Definition onXRSessionInit : JS unit :=
  a <- gets _planes ;;
  forEach (fun r => Mesh_dispose r None None) (Array_present a) ;;
  modify (with_planes pop_while).

(** ** Event delivery *)

Inductive Event :=
  | PlaneAdded (plane : IWebXRPlane) (random : Color3)
  | PlaneUpdated (plane : IWebXRPlane)
  | PlaneRemoved (plane : IWebXRPlane)
  | SessionReinitialized.

Definition dispatch (e : Event) : JS unit :=
  match e with
  | PlaneAdded plane random => onPlaneAdded plane random
  | PlaneUpdated plane => onPlaneUpdated plane
  | PlaneRemoved plane => onPlaneRemoved plane
  | SessionReinitialized => onXRSessionInit
  end.

(** Every notification is a callback invocation of its own: it runs on the
    store the previous one left, also when that one threw. *)
Definition deliver (es : list Event) (w : World) : World :=
  foldl (fun w e => snd (dispatch e w)) w es.

(** The plane id an event is about, if any. *)
Definition event_id (e : Event) : option nat :=
  match e with
  | PlaneAdded plane _ | PlaneUpdated plane | PlaneRemoved plane => Some (plane_id plane)
  | SessionReinitialized => None
  end.

(** ** Outlines *)

(** An outline [initPolygon] can build from: it has a first point and no
    missing entry. *)
Definition buildable (pts : list (option Vector3)) : bool :=
  match pts with
  | [] => false
  | _ :: _ => negb (some_missing pts)
  end.

(** The points of an outline, and the contour handed to the polygon builder. *)
Definition points (pts : list (option Vector3)) : list Vector3 := omap (fun p => p) pts.

Definition to_Vector2 (p : Vector3) : Vector2 := mkVector2 (vx p) (vz p).

(** The number of distinct entries of an outline. *)
Definition distinct (pts : list (option Vector3)) : nat := length (remove_dups pts).

(** The mesh [initPolygon] leaves in the store for a closed outline [pts]. *)
Definition polygon_of (plane : IWebXRPlane) (pts : list (option Vector3))
    (mat : option ref) : Mesh :=
  {| name := xrPlane_orientation plane;
     contour := to_Vector2 <$> points pts;
     updatable := false;
     depth := 0.01%Q;
     hasNormals := true;
     material := mat;
     rotationQuaternion := Some (m_rotation (transformationMatrix plane));
     scaling := m_scale (transformationMatrix plane);
     position := m_translation (transformationMatrix plane);
     checkCollisions := true;
     receiveShadows := true;
     isDisposed := false |}.

(** ** The stores the callbacks leave *)

(** The plane record with its outline closed, as [initPolygon] leaves it. *)
Definition closed (plane : IWebXRPlane) : IWebXRPlane :=
  with_polygonDefinition (push_first (polygonDefinition plane)) plane.

(** The store after a successful [initPolygon]. *)
Definition installed (plane : IWebXRPlane) (k : option ref) (w : World) : World :=
  {| scene_meshes :=
       scene_meshes w ++ [polygon_of plane (push_first (polygonDefinition plane)) k];
     scene_materials := scene_materials w;
     _planes := Array_set (_planes w) (plane_id plane) (length (scene_meshes w));
     mat := mat w |}.

(** The store after [dispose] on a mesh whose material is kept. *)
Definition disposed (r : ref) (w : World) : World :=
  with_meshes (alter (set_isDisposed true) r) w.

(** The store after [dispose] on each mesh of [rs] in turn. *)
Definition dispose_all (rs : list ref) (w : World) : World :=
  foldl (fun w r => disposed r w) w rs.

(** The store after the first four statements of [onPlaneAdded]. *)
Definition with_new_material (random : Color3) (w : World) : World :=
  {| scene_meshes := scene_meshes w;
     scene_materials := scene_materials w ++
       [{| alpha := 0.35%Q; diffuseColor := random; material_isDisposed := false |}];
     _planes := _planes w;
     mat := Some (length (scene_materials w)) |}.

(** The store after [onPlaneAdded]. *)
Definition added (plane : IWebXRPlane) (random : Color3) (w : World) : World :=
  let w1 := with_new_material random w in
  if buildable (polygonDefinition plane)
  then installed plane (Some (length (scene_materials w))) w1
  else w1.

(** The store after [onPlaneUpdated] on a filled slot: [r] is the mesh in the
    slot of the plane and [k] its material. *)
Definition updated (plane : IWebXRPlane) (r k : ref) (w : World) : World :=
  let w1 := disposed r (with_mat (Some k) w) in
  if buildable (polygonDefinition plane) then installed plane (Some k) w1 else w1.

(** ** Invariants of the store *)

(** Every reference stored in [_planes] names a mesh of the store. *)
Definition refs_valid (w : World) : Prop :=
  forall i r, Array_get (_planes w) i = Some r -> r < length (scene_meshes w).

(** The slot of id [i] holds a mesh that has a material. *)
Definition holds (i : nat) (w : World) : Prop :=
  exists r m k,
    Array_get (_planes w) i = Some r /\
    scene_meshes w !! r = Some m /\
    material m = Some k.

(** The slot of id [i] holds a mesh whose material is the object [M]. *)
Definition has_material (i : nat) (M : ref) (w : World) : Prop :=
  exists r m,
    Array_get (_planes w) i = Some r /\
    scene_meshes w !! r = Some m /\
    material m = Some M.

(** Every slot names a mesh of the scene that has a material of the scene,
    and no mesh sits in two slots. *)
Definition wf_World (w : World) : Prop :=
  (forall i r, Array_get (_planes w) i = Some r ->
     exists m k, scene_meshes w !! r = Some m /\ material m = Some k /\
                 k < length (scene_materials w)) /\
  (forall i j r, Array_get (_planes w) i = Some r -> Array_get (_planes w) j = Some r -> i = j).

(** ** Event sequences *)

(** A PlaneAdded or PlaneUpdated event for id [i]. *)
Definition add_or_update_for (i : nat) (e : Event) : Prop :=
  match e with
  | PlaneAdded plane _ | PlaneUpdated plane => plane_id plane = i
  | PlaneRemoved _ | SessionReinitialized => False
  end.

(** A PlaneAdded event for id [i]. *)
Definition add_for (i : nat) (e : Event) : Prop :=
  match e with
  | PlaneAdded plane _ => plane_id plane = i
  | PlaneUpdated _ | PlaneRemoved _ | SessionReinitialized => False
  end.

(** A PlaneAdded whose outline [initPolygon] can build from. *)
Definition builds (e : Event) : bool :=
  match e with
  | PlaneAdded plane _ => buildable (polygonDefinition plane)
  | _ => false
  end.

(** Any event but the session re-initialisation. *)
Definition plane_notification (e : Event) : Prop := e <> SessionReinitialized.

(** The events of a sequence that are about id [i]. *)
Definition about (i : nat) (e : Event) : bool := bool_decide (event_id e = Some i).

(** The events of a sequence that are not about an id other than [i]. *)
Definition concerns (i : nat) (e : Event) : bool :=
  match event_id e with
  | Some j => bool_decide (j = i)
  | None => true
  end.

(** ** What the registry shows for an id *)

(** What the registry shows for id [i]: the mesh in its slot and the material
    of that mesh, by content.  References are left out, since they count the
    objects constructed so far, for whatever id. *)
Definition Tracked : Type := Mesh * option StandardMaterial.

(** The mesh without its material reference. *)
Definition strip (m : Mesh) : Mesh := set_material None m.

Definition view (i : nat) (w : World) : option Tracked :=
  match Array_get (_planes w) i with
  | Some r =>
      match scene_meshes w !! r with
      | Some m =>
          Some (strip m,
                match material m with
                | Some k => scene_materials w !! k
                | None => None
                end)
      | None => None
      end
  | None => None
  end.

(** [dispose] seen through [view]. *)
Definition dispose_view (v : option Tracked) : option Tracked :=
  match v with
  | Some (m, k) => Some (set_isDisposed true m, k)
  | None => None
  end.

(** What a plane notification for an id does to what the registry shows for
    that id. *)
Definition track (e : Event) (v : option Tracked) : option Tracked :=
  match e with
  | PlaneAdded plane random =>
      if buildable (polygonDefinition plane)
      then Some (polygon_of plane (push_first (polygonDefinition plane)) None,
                 Some {| alpha := 0.35%Q; diffuseColor := random;
                         material_isDisposed := false |})
      else v
  | PlaneUpdated plane =>
      match v with
      | Some (m, k) =>
          if buildable (polygonDefinition plane)
          then Some (polygon_of plane (push_first (polygonDefinition plane)) None, k)
          else Some (set_isDisposed true m, k)
      | None => None
      end
  | PlaneRemoved _ => dispose_view v
  | SessionReinitialized => v
  end.

(** ** Sample data *)

Definition origin : Vector3 := mkVector3 0%Q 0%Q 0%Q.
Definition east : Vector3 := mkVector3 1%Q 0%Q 0%Q.
Definition north : Vector3 := mkVector3 0%Q 0%Q 1%Q.

Definition placement : Matrix :=
  mkMatrix (mkVector3 2%Q 1%Q 2%Q) Quaternion_new (mkVector3 0%Q 1.5%Q 3%Q).

Definition triangle (i : nat) : IWebXRPlane :=
  mkPlane i [Some origin; Some east; Some north] placement horizontal.

(** A detector frame whose second outline point is not ready yet. *)
Definition stale_triangle (i : nat) : IWebXRPlane :=
  mkPlane i [Some origin; None; Some north] placement horizontal.

(** A two-point outline. *)
Definition segment (i : nat) : IWebXRPlane :=
  mkPlane i [Some origin; Some east] placement vertical.

Definition red : Color3 := mkColor3 1%Q 0%Q 0%Q.
Definition blue : Color3 := mkColor3 0%Q 0%Q 1%Q.

(** The store after the detector has reported plane 0. *)
Definition one_plane : World := deliver [PlaneAdded (triangle 0) red] World_init.

(** The store after the detector has reported planes 0 and 2, but not 1. *)
Definition sparse_planes : World :=
  deliver [PlaneAdded (triangle 0) red; PlaneAdded (triangle 2) blue] World_init.

(** ** Materials constructed by an event *)

(** The material the add callback constructs: [new StandardMaterial] with
    [alpha = 0.35] and the drawn colour.  The other callbacks construct
    none. *)
Definition constructed (e : Event) : list StandardMaterial :=
  match e with
  | PlaneAdded _ random =>
      [{| alpha := 0.35%Q; diffuseColor := random; material_isDisposed := false |}]
  | PlaneUpdated _ | PlaneRemoved _ | SessionReinitialized => []
  end.

(** * The hit-test marker ([addMarkerForHitTest], [performHitTest]) *)

Module HitTest.

(** What the callback reads of an [IWebXRHitResult]. *)
Record IWebXRHitResult := mkHitResult { transformationMatrix : Matrix }.

(** The torus mesh [_marker]: the fields the code writes, and its scaling. *)
Record Marker := mkMarker {
  isVisible : bool;
  rotationQuaternion : option Quaternion;
  position : Vector3;
  scaling : Vector3
}.

(** [_hitTest] is [undefined] ([None]) when there is no hit. *)
Record XrExperience := mkXrExperience {
  _xrHitTest : bool;                  (* the feature is not [null] *)
  _marker : option Marker;
  _hitTest : option IWebXRHitResult
}.

(** [MeshBuilder.CreateTorus] returns a visible mesh at the origin without a
    rotation quaternion; the method then hides it and gives it one. *)
Definition addMarkerForHitTest (x : XrExperience) : XrExperience :=
  {| _xrHitTest := _xrHitTest x;
     _marker := Some {| isVisible := false; rotationQuaternion := Some Quaternion_new;
                        position := Vector3_Zero; scaling := Vector3_One |};
     _hitTest := _hitTest x |}.

(** [performHitTest] subscribes the callback unless the feature or the marker
    is [null]: the result says whether it did. *)
Definition performHitTest (x : XrExperience) : bool :=
  if negb (_xrHitTest x) || negb (bool_decide (is_Some (_marker x))) then false else true.

(** [decompose(undefined, rotation, translation)] of the engine fills the
    out-parameters it is given: no scale here, the rotation object if the
    marker has one, and the position. *)
Definition decompose_into (m : Matrix) (mk : Marker) : Marker :=
  {| isVisible := isVisible mk;
     rotationQuaternion :=
       match rotationQuaternion mk with
       | Some _ => Some (m_rotation m)
       | None => None
       end;
     position := m_translation m;
     scaling := scaling mk |}.

Definition set_isVisible (b : bool) (mk : Marker) : Marker :=
  {| isVisible := b; rotationQuaternion := rotationQuaternion mk;
     position := position mk; scaling := scaling mk |}.

(** The callback on [onHitTestResultObservable].  [this._marker!] is a plain
    property access: on [null] it throws. *)
Definition onHitTestResult (results : list IWebXRHitResult) (x : XrExperience)
    : Completion unit * XrExperience :=
  match _marker x with
  | None => (Throw TypeError, x)
  | Some mk =>
      match results with
      | first :: _ =>
          (Normal tt,
           {| _xrHitTest := _xrHitTest x;
              _marker := Some (decompose_into (transformationMatrix first)
                                 (set_isVisible true mk));
              _hitTest := Some first |})
      | [] =>
          (Normal tt,
           {| _xrHitTest := _xrHitTest x;
              _marker := Some (set_isVisible false mk);
              _hitTest := None |})
      end
  end.

(** The callback on each result list in turn. *)
Definition deliver (rss : list (list IWebXRHitResult)) (x : XrExperience) : XrExperience :=
  foldl (fun x results => snd (onHitTestResult results x)) x rss.

(** The first result of the last non-empty result list, if any. *)
Definition latest_hit (rss : list (list IWebXRHitResult)) : option IWebXRHitResult :=
  foldl (fun h results => match results with first :: _ => Some first | [] => h end) None rss.

End HitTest.

(** * Enabling the features ([addFeaturesToSession], [createScene]) *)

Module Features.

Inductive WebXRFeatureName := PLANE_DETECTION | HIT_TEST | ANCHOR_SYSTEM.

(** An enabled feature; [isCompatible] is what [isCompatible()] answers. *)
Record Feature := mkFeature { isCompatible : bool }.

(** [featuresManager.enableFeature(name, "latest")] is the engine's: it
    returns the feature or throws ([None]). *)
Definition WebXRFeaturesManager : Type := WebXRFeatureName -> option Feature.

Record XrExperience := mkXrExperience {
  _xr : option WebXRFeaturesManager;   (* [_xr.baseExperience.featuresManager], or [_xr] is [null] *)
  _fm : option WebXRFeaturesManager;
  _xrPlanes : option Feature;
  _xrHitTest : option Feature;
  _xrAnchors : option Feature;
  _marker : bool                        (* [_marker] is not [null] *)
}.

(** The fields as the constructor and [createXrExperience] leave them. *)
Definition initial (xr : option WebXRFeaturesManager) : XrExperience :=
  {| _xr := xr; _fm := None; _xrPlanes := None; _xrHitTest := None; _xrAnchors := None;
     _marker := false |}.

Definition set_fm (fm : WebXRFeaturesManager) (x : XrExperience) : XrExperience :=
  {| _xr := _xr x; _fm := Some fm; _xrPlanes := _xrPlanes x; _xrHitTest := _xrHitTest x;
     _xrAnchors := _xrAnchors x; _marker := _marker x |}.

Definition set_xrPlanes (f : Feature) (x : XrExperience) : XrExperience :=
  {| _xr := _xr x; _fm := _fm x; _xrPlanes := Some f; _xrHitTest := _xrHitTest x;
     _xrAnchors := _xrAnchors x; _marker := _marker x |}.

Definition set_xrHitTest (f : Feature) (x : XrExperience) : XrExperience :=
  {| _xr := _xr x; _fm := _fm x; _xrPlanes := _xrPlanes x; _xrHitTest := Some f;
     _xrAnchors := _xrAnchors x; _marker := _marker x |}.

Definition set_xrAnchors (f : Feature) (x : XrExperience) : XrExperience :=
  {| _xr := _xr x; _fm := _fm x; _xrPlanes := _xrPlanes x; _xrHitTest := _xrHitTest x;
     _xrAnchors := Some f; _marker := _marker x |}.

Definition set_marker (x : XrExperience) : XrExperience :=
  {| _xr := _xr x; _fm := _fm x; _xrPlanes := _xrPlanes x; _xrHitTest := _xrHitTest x;
     _xrAnchors := _xrAnchors x; _marker := true |}.

(** [addFeaturesToSession] of part 9 (part 6 is the same without the anchor
    system).  The three assignments are one [try] block: the first
    [enableFeature] that throws ends it, and [catch] only logs. *)
Definition addFeaturesToSession (x : XrExperience) : XrExperience :=
  match _xr x with
  | None => x
  | Some fm =>
      let x := set_fm fm x in
      match fm PLANE_DETECTION with
      | None => x
      | Some planes =>
          let x := set_xrPlanes planes x in
          match fm HIT_TEST with
          | None => x
          | Some hits =>
              let x := set_xrHitTest hits x in
              match fm ANCHOR_SYSTEM with
              | None => x
              | Some anchors => set_xrAnchors anchors x
              end
          end
      end
  end.

(** The observables the methods subscribe to. *)
Inductive Observable :=
  | onPlaneAddedObservable
  | onPlaneUpdatedObservable
  | onPlaneRemovedObservable
  | onXRSessionInit
  | onHitTestResultObservable
  | onAnchorAddedObservable
  | onControllerAddedObservable.

#[global] Instance Observable_eq_dec : EqDecision Observable.
Proof. solve_decision. Defined.

(** What each method subscribes to, given the fields: its guards. *)
Definition createPlaneMeshesFromXrPlane (x : XrExperience) : list Observable :=
  match _xrPlanes x with
  | None => []
  | Some _ =>
      [onPlaneAddedObservable; onPlaneUpdatedObservable; onPlaneRemovedObservable] ++
      match _xr x with
      | Some _ => [onXRSessionInit]
      | None => []
      end
  end.

Definition performHitTest (x : XrExperience) : list Observable :=
  match _xrHitTest x with
  | None => []
  | Some _ => if _marker x then [onHitTestResultObservable] else []
  end.

Definition observeAnchors (x : XrExperience) : list Observable :=
  match _xrAnchors x with
  | None => []
  | Some _ => [onAnchorAddedObservable]
  end.

Definition handleControllerSelection (x : XrExperience) : list Observable :=
  match _xr x with
  | None => []
  | Some _ => [onControllerAddedObservable]
  end.

(** The subscriptions [createScene] of part 9 makes, in order.  The calls
    that only construct engine objects (lights, box, animation, door asset,
    inspector) subscribe to nothing and are left out; [addMarkerForHitTest]
    sets [_marker] before [performHitTest] tests it. *)
Definition createScene (x : XrExperience) : list Observable :=
  createPlaneMeshesFromXrPlane x ++
  performHitTest (set_marker x) ++
  match _xrAnchors x with
  | Some anchors =>
      if isCompatible anchors
      then observeAnchors (set_marker x) ++ handleControllerSelection (set_marker x)
      else []
  | None => []
  end.

End Features.

(** * Placing and opening the door (part 9: [handleControllerSelection],
      [addAnchorAtPosition], [animateDoor], [openDoor], [closeDoor]) *)

Module Door.

(** [s.includes(sub)] *)
Fixpoint includes (s sub : string) : bool :=
  if String.prefix sub s then true
  else match s with
       | EmptyString => false
       | String _ s' => includes s' sub
       end.

(** The character [c] occurs in [s]. *)
Fixpoint mentions (c : Ascii.ascii) (s : string) : bool :=
  match s with
  | EmptyString => false
  | String a s' => if Ascii.ascii_dec c a then true else mentions c s'
  end.

(** The name part 9 gives a plane mesh in [initPolygon]:
    [plane.xrPlane.orientation + plane.id]. *)
Definition orientation_name (o : XRPlaneOrientation) : string :=
  match o with
  | horizontal => "horizontal"
  | vertical => "vertical"
  end.

Definition polygon_name (plane : IWebXRPlane) : string :=
  orientation_name (xrPlane_orientation plane) +:+
  NilEmpty.string_of_uint (Nat.to_uint (plane_id plane)).

(** [a > b] on numbers. *)
Definition gt (a b : number) : bool := negb (Qle_bool a b).

(** The values of the key frames of the door animation.  The end rotation is
    [Quaternion.RotationAxis(axis, angle).multiply(start)], which the engine
    computes; it is kept as that expression, with the angle in units of pi. *)
Inductive Rotation :=
  | Exactly (q : Quaternion)
  | RotationAxis_multiply (axis : Vector3) (angle_over_pi : number) (q : Quaternion).

Inductive AnimationType := ANIMATIONTYPE_FLOAT | ANIMATIONTYPE_QUATERNION.
Inductive AnimationLoopMode := ANIMATIONLOOPMODE_CYCLE | ANIMATIONLOOPMODE_CONSTANT.

Record Animation := mkAnimation {
  animation_name : string;
  targetProperty : string;
  framePerSecond : nat;
  dataType : AnimationType;
  loopMode : AnimationLoopMode;
  keys : list (nat * Rotation)
}.

Inductive Parent :=
  | ParentMesh (r : ref)
  | ParentTransformNode (n : nat).

(** A mesh of the scene: the fields these methods read or write. *)
Record AbstractMesh := mkAbstractMesh {
  name : string;
  isVisible : bool;
  position : option Vector3;
  rotationQuaternion : option Quaternion;
  material : option ref;
  parent : option Parent;
  animations : list Animation
}.

(** What [scene.pickWithRay] reports. *)
Record PickingInfo := mkPickingInfo {
  hit : bool;
  pickedMesh : option ref;
  pickedPoint : option Vector3
}.

(** A controller component as the callbacks see it. *)
Record WebXRControllerComponent := mkComponent {
  pressed : bool;
  value : number
}.

(** The fields of the class these methods use.  [transformNodes] holds the
    parent of every [TransformNode] constructed; [anchorRequests] the calls
    of [addAnchorAtPositionAndRotationAsync] made so far, each with the
    [raycastHit] its [then] callback closes over; [attachedNodes] the
    [attachedNode] assignments to anchors; [begunAnimations] the calls of
    [scene.beginAnimation] (target, from, to, loop). *)
Record XrExperience := mkXrExperience {
  meshes : list AbstractMesh;
  materials : list StandardMaterial;
  transformNodes : list (option ref);
  _xrAnchors : bool;
  _marker : option ref;
  _box : option ref;
  _door : option ref;
  _doorFrame : option ref;
  _handle : option ref;
  _doorContainer : option ref;
  _doorIsOpen : bool;
  _doorIsPlaced : bool;
  anchorRequests : list PickingInfo;
  attachedNodes : list (nat * ref);
  begunAnimations : list (ref * nat * nat * bool)
}.

Definition set_isVisible (v : bool) (m : AbstractMesh) : AbstractMesh :=
  {| name := name m; isVisible := v; position := position m;
     rotationQuaternion := rotationQuaternion m; material := material m;
     parent := parent m; animations := animations m |}.

Definition set_position (v : option Vector3) (m : AbstractMesh) : AbstractMesh :=
  {| name := name m; isVisible := isVisible m; position := v;
     rotationQuaternion := rotationQuaternion m; material := material m;
     parent := parent m; animations := animations m |}.

Definition set_rotationQuaternion (v : option Quaternion) (m : AbstractMesh) : AbstractMesh :=
  {| name := name m; isVisible := isVisible m; position := position m;
     rotationQuaternion := v; material := material m; parent := parent m;
     animations := animations m |}.

Definition set_material (v : option ref) (m : AbstractMesh) : AbstractMesh :=
  {| name := name m; isVisible := isVisible m; position := position m;
     rotationQuaternion := rotationQuaternion m; material := v; parent := parent m;
     animations := animations m |}.

Definition set_parent (v : option Parent) (m : AbstractMesh) : AbstractMesh :=
  {| name := name m; isVisible := isVisible m; position := position m;
     rotationQuaternion := rotationQuaternion m; material := material m; parent := v;
     animations := animations m |}.

Definition set_animations (v : list Animation) (m : AbstractMesh) : AbstractMesh :=
  {| name := name m; isVisible := isVisible m; position := position m;
     rotationQuaternion := rotationQuaternion m; material := material m;
     parent := parent m; animations := v |}.

Definition set_meshes (v : list AbstractMesh) (x : XrExperience) : XrExperience :=
  {| meshes := v; materials := materials x; transformNodes := transformNodes x;
     _xrAnchors := _xrAnchors x; _marker := _marker x; _box := _box x;
     _door := _door x; _doorFrame := _doorFrame x; _handle := _handle x;
     _doorContainer := _doorContainer x; _doorIsOpen := _doorIsOpen x;
     _doorIsPlaced := _doorIsPlaced x; anchorRequests := anchorRequests x;
     attachedNodes := attachedNodes x; begunAnimations := begunAnimations x |}.

Definition set_materials (v : list StandardMaterial) (x : XrExperience) : XrExperience :=
  {| meshes := meshes x; materials := v; transformNodes := transformNodes x;
     _xrAnchors := _xrAnchors x; _marker := _marker x; _box := _box x;
     _door := _door x; _doorFrame := _doorFrame x; _handle := _handle x;
     _doorContainer := _doorContainer x; _doorIsOpen := _doorIsOpen x;
     _doorIsPlaced := _doorIsPlaced x; anchorRequests := anchorRequests x;
     attachedNodes := attachedNodes x; begunAnimations := begunAnimations x |}.

Definition set_transformNodes (v : list (option ref)) (x : XrExperience) : XrExperience :=
  {| meshes := meshes x; materials := materials x; transformNodes := v;
     _xrAnchors := _xrAnchors x; _marker := _marker x; _box := _box x;
     _door := _door x; _doorFrame := _doorFrame x; _handle := _handle x;
     _doorContainer := _doorContainer x; _doorIsOpen := _doorIsOpen x;
     _doorIsPlaced := _doorIsPlaced x; anchorRequests := anchorRequests x;
     attachedNodes := attachedNodes x; begunAnimations := begunAnimations x |}.

Definition set_doorIsOpen (v : bool) (x : XrExperience) : XrExperience :=
  {| meshes := meshes x; materials := materials x; transformNodes := transformNodes x;
     _xrAnchors := _xrAnchors x; _marker := _marker x; _box := _box x;
     _door := _door x; _doorFrame := _doorFrame x; _handle := _handle x;
     _doorContainer := _doorContainer x; _doorIsOpen := v;
     _doorIsPlaced := _doorIsPlaced x; anchorRequests := anchorRequests x;
     attachedNodes := attachedNodes x; begunAnimations := begunAnimations x |}.

Definition set_doorIsPlaced (v : bool) (x : XrExperience) : XrExperience :=
  {| meshes := meshes x; materials := materials x; transformNodes := transformNodes x;
     _xrAnchors := _xrAnchors x; _marker := _marker x; _box := _box x;
     _door := _door x; _doorFrame := _doorFrame x; _handle := _handle x;
     _doorContainer := _doorContainer x; _doorIsOpen := _doorIsOpen x;
     _doorIsPlaced := v; anchorRequests := anchorRequests x;
     attachedNodes := attachedNodes x; begunAnimations := begunAnimations x |}.

Definition set_anchorRequests (v : list PickingInfo) (x : XrExperience) : XrExperience :=
  {| meshes := meshes x; materials := materials x; transformNodes := transformNodes x;
     _xrAnchors := _xrAnchors x; _marker := _marker x; _box := _box x;
     _door := _door x; _doorFrame := _doorFrame x; _handle := _handle x;
     _doorContainer := _doorContainer x; _doorIsOpen := _doorIsOpen x;
     _doorIsPlaced := _doorIsPlaced x; anchorRequests := v;
     attachedNodes := attachedNodes x; begunAnimations := begunAnimations x |}.

Definition set_attachedNodes (v : list (nat * ref)) (x : XrExperience) : XrExperience :=
  {| meshes := meshes x; materials := materials x; transformNodes := transformNodes x;
     _xrAnchors := _xrAnchors x; _marker := _marker x; _box := _box x;
     _door := _door x; _doorFrame := _doorFrame x; _handle := _handle x;
     _doorContainer := _doorContainer x; _doorIsOpen := _doorIsOpen x;
     _doorIsPlaced := _doorIsPlaced x; anchorRequests := anchorRequests x;
     attachedNodes := v; begunAnimations := begunAnimations x |}.

Definition set_begunAnimations (v : list (ref * nat * nat * bool)) (x : XrExperience) : XrExperience :=
  {| meshes := meshes x; materials := materials x; transformNodes := transformNodes x;
     _xrAnchors := _xrAnchors x; _marker := _marker x; _box := _box x;
     _door := _door x; _doorFrame := _doorFrame x; _handle := _handle x;
     _doorContainer := _doorContainer x; _doorIsOpen := _doorIsOpen x;
     _doorIsPlaced := _doorIsPlaced x; anchorRequests := anchorRequests x;
     attachedNodes := attachedNodes x; begunAnimations := v |}.

(** The callbacks run in the same kind of monad as the plane callbacks, over
    these fields. *)
Definition M (A : Type) : Type := XrExperience -> Completion A * XrExperience.

Definition ret {A} (a : A) : M A := fun x => (Normal a, x).

Definition bind {A B} (m : M A) (k : A -> M B) : M B :=
  fun x => match m x with
           | (Normal a, x') => k a x'
           | (Throw e, x') => (Throw e, x')
           end.

Definition throw {A} (e : Error) : M A := fun x => (Throw e, x).
Definition gets {A} (f : XrExperience -> A) : M A := fun x => (Normal (f x), x).
Definition modify (f : XrExperience -> XrExperience) : M unit := fun x => (Normal tt, f x).

Declare Scope door_scope.
Delimit Scope door_scope with door.
Notation "x <- m ;; k" := (bind m (fun x => k))
  (at level 20, m at level 99, k at level 200, only parsing) : door_scope.
Notation "m ;; k" := (bind m (fun _ => k))
  (at level 100, k at level 200, only parsing) : door_scope.
Local Open Scope door_scope.

(** A property access through a field that may be [null] ([this._door!.x],
    [q!.clone()]): on [null] it throws. *)
Definition the {A} (o : option A) : M A :=
  match o with
  | Some a => ret a
  | None => throw TypeError
  end.

Definition read_mesh (r : ref) : M AbstractMesh :=
  fun x => match meshes x !! r with
           | Some m => (Normal m, x)
           | None => (Throw InvalidReference, x)
           end.

Definition update_mesh (r : ref) (f : AbstractMesh -> AbstractMesh) : M unit :=
  modify (fun x => set_meshes (alter f r (meshes x)) x).

Definition update_material (k : ref) (f : StandardMaterial -> StandardMaterial) : M unit :=
  modify (fun x => set_materials (alter f k (materials x)) x).

(** The animation [animateDoor] constructs when [_doorIsOpen] is [open] and
    the door's rotation is [start]. *)
Definition doorAnimation (open : bool) (start : Quaternion) (duration : nat) : Animation :=
  {| animation_name := if open then "doorOpenQuat" else "doorCloseQuat";
     targetProperty := "rotationQuaternion";
     framePerSecond := 30;
     dataType := ANIMATIONTYPE_QUATERNION; loopMode := ANIMATIONLOOPMODE_CONSTANT;
     keys := [(0, Exactly start);
              (duration,
               RotationAxis_multiply (mkVector3 0%Q 1%Q 0%Q)
                 (if open then (-1 / 1.5)%Q else (1 / 1.5)%Q) start)] |}.

(** [animateDoor(duration)] *)
Definition animateDoor (duration : nat) : M unit :=
  open <- gets _doorIsOpen ;;
  let animationName := if open then "doorOpenQuat" else "doorCloseQuat" in
  door <- gets _door ;;
  d <- the door ;;
  m <- read_mesh d ;;
  startRotation <- the (rotationQuaternion m) ;;
  let axis := mkVector3 0%Q 1%Q 0%Q in
  let angle := if open then (-1 / 1.5)%Q else (1 / 1.5)%Q in
  let endRotation := RotationAxis_multiply axis angle startRotation in
  let doorAnimation :=
    {| animation_name := animationName; targetProperty := "rotationQuaternion";
       framePerSecond := 30;
       dataType := ANIMATIONTYPE_QUATERNION; loopMode := ANIMATIONLOOPMODE_CONSTANT;
       keys := [(0, Exactly startRotation); (duration, endRotation)] |} in
  m <- read_mesh d ;;
  match rotationQuaternion m with
  | None => update_mesh d (set_rotationQuaternion (Some Quaternion_new))
  | Some _ => ret tt
  end ;;
  update_mesh d (set_animations [doorAnimation]) ;;
  modify (fun x => set_begunAnimations (begunAnimations x ++ [(d, 0, duration, false)]) x).

Definition openDoor : M unit :=
  door <- gets _door ;;
  match door with
  | Some _ => animateDoor 30 ;; modify (set_doorIsOpen true)
  | None => ret tt
  end.

Definition closeDoor : M unit :=
  door <- gets _door ;;
  match door with
  | Some _ => animateDoor 30 ;; modify (set_doorIsOpen false)
  | None => ret tt
  end.

(** The callback on the state of the button component (component id 3). *)
Definition onButtonStateChanged (component : WebXRControllerComponent) : M unit :=
  if pressed component then
    open <- gets _doorIsOpen ;;
    if open then closeDoor else openDoor
  else ret tt.

(** [addAnchorAtPosition(raycastHit)] up to the promise: the request. *)
Definition addAnchorAtPosition (raycastHit : PickingInfo) : M unit :=
  anchors <- gets _xrAnchors ;;
  if anchors
  then modify (fun x => set_anchorRequests (anchorRequests x ++ [raycastHit]) x)
  else throw TypeError.

(** The [then] callback of [addAnchorAtPosition], run by the engine with the
    anchor it created. *)
Definition onAnchorCreated (raycastHit : PickingInfo) (anchor : nat) : M unit :=
  boxTransformNode <- gets (fun x => length (transformNodes x)) ;;
  modify (fun x => set_transformNodes (transformNodes x ++ [None]) x) ;;
  box <- gets _box ;;
  b <- the box ;;
  update_mesh b (set_parent (Some (ParentTransformNode boxTransformNode))) ;;
  update_mesh b (set_position (Some (mkVector3 0%Q 1%Q 0.5%Q))) ;;
  update_mesh b (set_isVisible true) ;;
  door <- gets _door ;;
  d <- the door ;;
  update_mesh d (set_isVisible true) ;;
  doorFrame <- gets _doorFrame ;;
  f <- the doorFrame ;;
  update_mesh f (set_isVisible true) ;;
  handle <- gets _handle ;;
  h <- the handle ;;
  update_mesh h (set_isVisible true) ;;
  doorContainer <- gets _doorContainer ;;
  c <- the doorContainer ;;
  update_mesh c (set_position (pickedPoint raycastHit)) ;;
  modify (fun x => set_transformNodes (<[boxTransformNode := Some c]> (transformNodes x)) x) ;;
  modify (fun x => set_attachedNodes (attachedNodes x ++ [(anchor, c)]) x) ;;
  update_mesh c (set_position (pickedPoint raycastHit)) ;;
  modify (set_doorIsPlaced true).

(** [pickedMesh === this._f] *)
Definition same (r : ref) (field : option ref) : bool := bool_decide (field = Some r).

(** The callback on the state of the trigger component (component id 0).
    [raycastHit] is what [scene.pickWithRay] returns for the controller's ray
    and [random] what [Color3.Random()] would draw. *)
Definition onTriggerStateChanged (component : WebXRControllerComponent)
    (raycastHit : option PickingInfo) (random : Color3) : M unit :=
  if pressed component && gt (value component) 0.8%Q then
    match raycastHit with
    | Some info =>
        match (if hit info then pickedMesh info else None) with
        | Some r =>
            m <- read_mesh r ;;
            notFloor <-
              (if includes (name m) "vertical" then ret true
               else if includes (name m) "horizontal"
                    then p <- the (position m) ;; ret (gt (vy p) 0.5%Q)
                    else ret false) ;;
            if notFloor : bool then ret tt
            else
              x <- gets (fun x => x) ;;
              if same r (_door x) || same r (_handle x) || same r (_doorFrame x) || same r (_marker x)
              then ret tt
              else
                (if same r (_box x)
                 then
                   b <- read_mesh r ;;
                   mat <- the (material b) ;;
                   update_material mat (set_diffuseColor random) ;;
                   update_mesh r (set_material (Some mat))
                 else ret tt) ;;
                placed <- gets _doorIsPlaced ;;
                if placed then ret tt else addAnchorAtPosition info
        | None => ret tt
        end
    | None => ret tt
    end
  else ret tt.

(** ** The events of part 9 *)

Inductive Event :=
  | TriggerStateChanged (component : WebXRControllerComponent)
      (raycastHit : option PickingInfo) (random : Color3)
  | ButtonStateChanged (component : WebXRControllerComponent)
  | AnchorCreated (raycastHit : PickingInfo) (anchor : nat).

Definition dispatch (e : Event) : M unit :=
  match e with
  | TriggerStateChanged component raycastHit random =>
      onTriggerStateChanged component raycastHit random
  | ButtonStateChanged component => onButtonStateChanged component
  | AnchorCreated raycastHit anchor => onAnchorCreated raycastHit anchor
  end.

Definition deliver (es : list Event) (x : XrExperience) : XrExperience :=
  foldl (fun x e => snd (dispatch e x)) x es.

(** The number of presses in a sequence of button events. *)
Definition presses (cs : list WebXRControllerComponent) : nat :=
  length (filter (fun c => pressed c = true) cs).

End Door.

(** ** Array lemmas *)

Section array.
Context {A : Type}.
Implicit Types (a : list (option A)) (i j : nat) (v : A).

Lemma Array_get_ge a i : length a <= i -> Array_get a i = None.
Proof.
  intros Hle. unfold Array_get.
  assert (a !! i = None) as -> by (apply lookup_ge_None; lia). reflexivity.
Qed.

Lemma Array_get_set_eq a i v : Array_get (Array_set a i v) i = Some v.
Proof.
  unfold Array_get, Array_set. case_decide as Hlt.
  - rewrite list_lookup_insert_eq by assumption. reflexivity.
  - rewrite lookup_app_r by lia.
    rewrite lookup_app_r; rewrite length_replicate; [|lia].
    replace (i - length a - (i - length a)) with 0 by lia. reflexivity.
Qed.

Lemma Array_get_set_ne a i j v : i <> j -> Array_get (Array_set a i v) j = Array_get a j.
Proof.
  intros Hne. unfold Array_get, Array_set. case_decide as Hlt.
  - rewrite list_lookup_insert_ne by assumption. reflexivity.
  - destruct (decide (j < length a)) as [Hj|Hj].
    + rewrite lookup_app_l by assumption. reflexivity.
    + rewrite lookup_app_r by lia.
      assert (a !! j = None) as -> by (apply lookup_ge_None; lia).
      destruct (decide (j - length a < i - length a)) as [Hk|Hk].
      * rewrite lookup_app_l by (rewrite length_replicate; lia).
        rewrite lookup_replicate_2 by lia. reflexivity.
      * rewrite lookup_app_r by (rewrite length_replicate; lia).
        rewrite length_replicate.
        destruct (j - length a - (i - length a)) as [|n] eqn:E; [lia|].
        reflexivity.
Qed.

Lemma Array_get_set a i j v :
  Array_get (Array_set a i v) j = if decide (i = j) then Some v else Array_get a j.
Proof.
  case_decide as H; [subst; apply Array_get_set_eq | by apply Array_get_set_ne].
Qed.

Lemma Array_get_Some_lt a i v : Array_get a i = Some v -> i < length a.
Proof.
  intros H. destruct (decide (i < length a)) as [|Hge]; [assumption|].
  rewrite Array_get_ge in H by lia. discriminate.
Qed.

(** The loop [while (a.pop());] unfolds as the source reads: pop, and go
    on while the popped value is truthy. *)
Lemma pop_while_unfold a :
  pop_while a =
    match Array_pop a with
    | (Some _, a') => pop_while a'
    | (None, a') => a'
    end.
Proof.
  destruct a as [|s a0] using rev_ind; [reflexivity|].
  unfold pop_while, Array_pop.
  rewrite last_last, removelast_last, rev_unit. simpl.
  destruct s; [reflexivity|]. apply rev_involutive.
Qed.

Lemma pop_while_rev_length (r : list (option A)) : length (pop_while_rev r) <= length r.
Proof. induction r as [|[x|] r IH]; simpl; lia. Qed.

(** An array without holes is emptied. *)
Lemma pop_while_dense a : Forall is_Some a -> pop_while a = [].
Proof.
  intros H. unfold pop_while.
  assert (Forall is_Some (rev a)) as Hr by (by apply Forall_rev).
  induction Hr as [|s r [x ->] _ IH]; [reflexivity|]. exact IH.
Qed.

(** What is left after the loop is a prefix of the array. *)
Lemma pop_while_prefix a : exists rest, a = pop_while a ++ rest.
Proof.
  unfold pop_while.
  assert (forall r : list (option A), exists pre, r = pre ++ pop_while_rev r) as Hsuf.
  { induction r as [|[x|] r [pre IH]].
    - by exists [].
    - exists (Some x :: pre). simpl. by rewrite <- IH.
    - by exists [None]. }
  destruct (Hsuf (rev a)) as [pre Hpre]. exists (rev pre).
  rewrite <- rev_app_distr, <- Hpre. symmetry. apply rev_involutive.
Qed.

(** With a hole in the array, the loop stops at the topmost hole: all that
    lies below it stays. *)
Lemma pop_while_hole a b : Forall is_Some b -> pop_while (a ++ None :: b) = a.
Proof.
  intros Hb. unfold pop_while. rewrite rev_app_distr. cbn [rev].
  rewrite <- app_assoc. cbn [app].
  assert (Forall is_Some (rev b)) as Hr by (by apply Forall_rev).
  induction Hr as [|s r [x ->] _ IH]; [apply rev_involutive|exact IH].
Qed.

End array.

(** ** Stepping through the callbacks *)

Lemma alter_new {A} (f : A -> A) (h : list A) (x : A) :
  alter f (length h) (h ++ [x]) = h ++ [f x].
Proof.
  rewrite <- (Nat.add_0_r (length h)) at 1. rewrite alter_app_r. reflexivity.
Qed.

Lemma some_missing_app pts1 pts2 :
  some_missing (pts1 ++ pts2) = some_missing pts1 || some_missing pts2.
Proof. apply existsb_app. Qed.

Lemma map_Vector2_spec pts w :
  map_Vector2 pts w =
    (if some_missing pts then Throw TypeError else Normal (to_Vector2 <$> points pts), w).
Proof.
  induction pts as [|[p|] pts IH]; simpl; try reflexivity.
  unfold bind. rewrite IH. by destruct (some_missing pts).
Qed.

Lemma push_first_missing pts : some_missing (push_first pts) = negb (buildable pts).
Proof.
  unfold push_first. rewrite some_missing_app.
  destruct pts as [|[p|] pts]; simpl; try reflexivity.
  by rewrite orb_false_r, negb_involutive.
Qed.

Lemma initPolygon_ok plane k w :
  buildable (polygonDefinition plane) = true ->
  initPolygon plane k w = (Normal (closed plane, length (scene_meshes w)), installed plane k w).
Proof.
  intros Hb. unfold initPolygon, bind at 1. cbn [polygonDefinition with_polygonDefinition].
  rewrite map_Vector2_spec, push_first_missing, Hb. cbn [negb].
  unfold bind, new_Mesh, update_Mesh, modify, ret, with_meshes, with_planes, installed.
  cbn [scene_meshes scene_materials _planes mat xrPlane_orientation transformationMatrix
       plane_id with_polygonDefinition].
  rewrite alter_new.
  destruct k as [k|]; cbn [scene_meshes scene_materials _planes mat];
    rewrite ?alter_new; reflexivity.
Qed.

Lemma initPolygon_throw plane k w :
  buildable (polygonDefinition plane) = false ->
  initPolygon plane k w = (Throw TypeError, w).
Proof.
  intros Hb. unfold initPolygon, bind at 1. cbn [polygonDefinition with_polygonDefinition].
  rewrite map_Vector2_spec, push_first_missing, Hb. reflexivity.
Qed.

Lemma Mesh_dispose_keep r m a b w :
  scene_meshes w !! r = Some m ->
  default false b = false ->
  Mesh_dispose r a b w = (Normal tt, disposed r w).
Proof.
  intros Hm Hb. unfold Mesh_dispose, bind, read_Mesh. rewrite Hm, Hb. reflexivity.
Qed.

Lemma disposed_idemp r w : disposed r (disposed r w) = disposed r w.
Proof.
  unfold disposed, with_meshes. cbn [scene_meshes scene_materials _planes mat].
  f_equal. rewrite list_alter_alter_eq. apply list_alter_ext; [|reflexivity].
  intros x _. reflexivity.
Qed.

Lemma disposed_lookup r w r' :
  scene_meshes (disposed r w) !! r' =
    if decide (r = r') then set_isDisposed true <$> scene_meshes w !! r'
    else scene_meshes w !! r'.
Proof.
  unfold disposed, with_meshes. cbn [scene_meshes].
  case_decide as H; [subst; apply list_lookup_alter_eq | by apply list_lookup_alter_ne].
Qed.

Lemma planes_at_spec i w :
  planes_at i w =
    match Array_get (_planes w) i with
    | Some r => (Normal r, w)
    | None => (Throw TypeError, w)
    end.
Proof. unfold planes_at, bind, gets. by destruct (Array_get (_planes w) i). Qed.

(** [onPlaneUpdated] on a slot that holds a mesh with a material. *)
Lemma onPlaneUpdated_tracked plane w r m k :
  Array_get (_planes w) (plane_id plane) = Some r ->
  scene_meshes w !! r = Some m ->
  material m = Some k ->
  onPlaneUpdated plane w =
    if some_missing (polygonDefinition plane)
    then (Normal tt, disposed r (with_mat (Some k) w))
    else match initPolygon plane (Some k) (disposed r (with_mat (Some k) w)) with
         | (Normal _, w') => (Normal tt, w')
         | (Throw e, w') => (Throw e, w')
         end.
Proof.
  intros Hslot Hm Hk. unfold onPlaneUpdated, bind at 1. rewrite planes_at_spec, Hslot.
  unfold bind at 1, read_Mesh. rewrite Hm, Hk.
  unfold bind at 1, bind at 1, modify.
  rewrite (Mesh_dispose_keep r m) by done.
  destruct (some_missing (polygonDefinition plane)); [reflexivity|].
  unfold bind at 1, gets. cbn [mat disposed with_meshes with_mat].
  unfold bind, ret.
  by destruct (initPolygon _ _ _) as [[[]|] ?].
Qed.

Lemma onPlaneUpdated_untracked plane w :
  Array_get (_planes w) (plane_id plane) = None ->
  onPlaneUpdated plane w = (Throw TypeError, w).
Proof.
  intros Hslot. unfold onPlaneUpdated, bind at 1. by rewrite planes_at_spec, Hslot.
Qed.

Lemma onPlaneAdded_spec plane random w :
  onPlaneAdded plane random w =
    match initPolygon plane (Some (length (scene_materials w))) (with_new_material random w) with
    | (Normal _, w') => (Normal tt, w')
    | (Throw e, w') => (Throw e, w')
    end.
Proof.
  unfold onPlaneAdded, bind, new_StandardMaterial, modify, update_Material, modify, ret.
  unfold with_materials, with_mat. cbn [scene_meshes scene_materials _planes mat].
  rewrite !alter_new. unfold with_new_material.
  by destruct (initPolygon _ _ _) as [[[]|] ?].
Qed.

Lemma onPlaneRemoved_tracked plane w r m :
  Array_get (_planes w) (plane_id plane) = Some r ->
  scene_meshes w !! r = Some m ->
  onPlaneRemoved plane w = (Normal tt, disposed r w).
Proof.
  intros Hslot Hm. unfold onPlaneRemoved, bind at 1, gets. rewrite Hslot.
  by apply Mesh_dispose_keep with m.
Qed.

Lemma onPlaneRemoved_untracked plane w :
  Array_get (_planes w) (plane_id plane) = None ->
  onPlaneRemoved plane w = (Normal tt, w).
Proof. intros Hslot. unfold onPlaneRemoved, bind, gets. by rewrite Hslot. Qed.

(** ** Stale updates (C1) *)

(** C1, as stated, fails: plane 0 is tracked with mesh 0 installed and not
    disposed; an update whose outline has a missing point leaves the slot
    pointing at mesh 0, but mesh 0 has been disposed by then. *)
Lemma stale_update_disposes_installed_mesh :
  let w' := snd (onPlaneUpdated (stale_triangle 0) one_plane) in
  Array_get (_planes one_plane) 0 = Some 0 /\
  isDisposed <$> scene_meshes one_plane !! 0 = Some false /\
  some_missing (polygonDefinition (stale_triangle 0)) = true /\
  Array_get (_planes w') 0 = Some 0 /\
  isDisposed <$> scene_meshes w' !! 0 = Some true /\
  scene_meshes w' !! 0 <> scene_meshes one_plane !! 0.
Proof. vm_compute. repeat split; discriminate. Qed.

(** C1, amended: a PlaneUpdated whose outline has a missing point, for an id
    whose slot holds mesh X (with a material), completes without building
    anything; the registry is unchanged, so the slot still holds the same
    object X with the same material, and no other mesh and no material is
    touched; X itself has been disposed with dispose(false, false). *)
Theorem stale_update_keeps_slot plane w r m k :
  Array_get (_planes w) (plane_id plane) = Some r ->
  scene_meshes w !! r = Some m ->
  material m = Some k ->
  some_missing (polygonDefinition plane) = true ->
  exists w',
    onPlaneUpdated plane w = (Normal tt, w') /\
    _planes w' = _planes w /\
    length (scene_meshes w') = length (scene_meshes w) /\
    scene_meshes w' !! r = Some (set_isDisposed true m) /\
    (forall r', r' <> r -> scene_meshes w' !! r' = scene_meshes w !! r') /\
    scene_materials w' = scene_materials w.
Proof.
  intros Hslot Hm Hk Hstale.
  exists (disposed r (with_mat (Some k) w)).
  rewrite (onPlaneUpdated_tracked plane w r m k), Hstale by assumption.
  repeat split.
  - unfold disposed, with_meshes. cbn [scene_meshes]. apply length_alter.
  - rewrite disposed_lookup. case_decide; [|done]. cbn [with_mat scene_meshes].
    by rewrite Hm.
  - intros r' Hne. rewrite disposed_lookup. case_decide; [congruence|reflexivity].
Qed.

Lemma stale_update_keeps_slot_witness :
  exists w',
    onPlaneUpdated (stale_triangle 0) one_plane = (Normal tt, w') /\
    _planes w' = _planes one_plane /\
    length (scene_meshes w') = length (scene_meshes one_plane) /\
    scene_meshes w' !! 0 =
      Some (set_isDisposed true (polygon_of (triangle 0)
              (push_first (polygonDefinition (triangle 0))) (Some 0))) /\
    (forall r', r' <> 0 -> scene_meshes w' !! r' = scene_meshes one_plane !! r') /\
    scene_materials w' = scene_materials one_plane.
Proof.
  apply (stale_update_keeps_slot (stale_triangle 0) one_plane 0 _ 0); reflexivity.
Defined.

(** ** Updates for an id that holds no mesh (C2) *)

(** C2: the code does not treat a PlaneUpdated for an id whose slot is empty
    as a no-op: reading [.material] of the empty slot throws a TypeError out
    of the callback (the store is left as it was). *)
Theorem update_of_untracked_id_throws plane w :
  Array_get (_planes w) (plane_id plane) = None ->
  onPlaneUpdated plane w = (Throw TypeError, w).
Proof. apply onPlaneUpdated_untracked. Qed.

Lemma update_of_untracked_id_throws_witness :
  onPlaneUpdated (triangle 0) World_init = (Throw TypeError, World_init).
Proof. apply (update_of_untracked_id_throws (triangle 0) World_init). reflexivity. Defined.

(** An id that was added and then removed keeps its slot, so an update for
    it is not a no-op either: it builds and installs a new mesh. *)
Lemma update_after_remove_rebuilds :
  let w := deliver [PlaneAdded (triangle 0) red; PlaneRemoved (triangle 0)] World_init in
  let w' := snd (onPlaneUpdated (triangle 0) w) in
  Array_get (_planes w) 0 = Some 0 /\
  Array_get (_planes w') 0 = Some 1 /\
  isDisposed <$> scene_meshes w' !! 1 = Some false.
Proof. vm_compute. repeat split. Qed.

(** ** Session re-initialisation (C3) *)

Lemma disposed_length r w : length (scene_meshes (disposed r w)) = length (scene_meshes w).
Proof. unfold disposed, with_meshes. cbn [scene_meshes]. apply length_alter. Qed.

Lemma forEach_dispose rs w :
  Forall (fun r => r < length (scene_meshes w)) rs ->
  forEach (fun r => Mesh_dispose r None None) rs w = (Normal tt, dispose_all rs w).
Proof.
  revert w. induction rs as [|r rs IH]; intros w Hrs; [reflexivity|].
  apply Forall_cons_1 in Hrs as [Hr Hrs].
  destruct (lookup_lt_is_Some_2 _ _ Hr) as [m Hm].
  cbn [forEach]. unfold bind. rewrite (Mesh_dispose_keep r m) by done.
  apply IH. rewrite disposed_length. exact Hrs.
Qed.

Lemma elem_of_Array_present {A} (a : list (option A)) (x : A) :
  x ∈ Array_present a <-> exists i, Array_get a i = Some x.
Proof.
  unfold Array_present, Array_get. rewrite list_elem_of_omap. split.
  - intros (s & Hs & ->). apply list_elem_of_lookup in Hs as [i Hi].
    exists i. by rewrite Hi.
  - intros [i Hi]. destruct (a !! i) as [s|] eqn:E; [|discriminate].
    exists s. split; [|exact Hi]. apply list_elem_of_lookup. by exists i.
Qed.

Lemma onXRSessionInit_spec w :
  refs_valid w ->
  onXRSessionInit w =
    (Normal tt, with_planes pop_while (dispose_all (Array_present (_planes w)) w)).
Proof.
  intros Hv. unfold onXRSessionInit, bind at 1, gets.
  unfold bind. rewrite forEach_dispose; [reflexivity|].
  apply list.Forall_forall. intros r [i Hi]%elem_of_Array_present. by apply (Hv i).
Qed.

Lemma dispose_all_cons r rs w : dispose_all (r :: rs) w = dispose_all rs (disposed r w).
Proof. reflexivity. Qed.

Lemma dispose_all_planes rs w : _planes (dispose_all rs w) = _planes w.
Proof.
  revert w. induction rs as [|r rs IH]; intros w; [reflexivity|].
  by rewrite dispose_all_cons, IH.
Qed.

Lemma dispose_all_lookup rs w r :
  scene_meshes (dispose_all rs w) !! r =
    if decide (r ∈ rs) then set_isDisposed true <$> scene_meshes w !! r
    else scene_meshes w !! r.
Proof.
  revert w. induction rs as [|r0 rs IH]; intros w.
  - case_decide as H; [by apply elem_of_nil in H|reflexivity].
  - rewrite dispose_all_cons, IH, disposed_lookup.
    destruct (decide (r ∈ r0 :: rs)) as [Hin|Hin].
    + destruct (decide (r0 = r)) as [->|Hne].
      * case_decide; [|reflexivity]. destruct (scene_meshes w !! r); reflexivity.
      * rewrite decide_True; [reflexivity|].
        apply elem_of_cons in Hin as [?|?]; [congruence|assumption].
    + rewrite decide_False by (intros ?; apply Hin; by apply list_elem_of_further).
      rewrite decide_False; [reflexivity|].
      intros ->. apply Hin, list_elem_of_here.
Qed.

(** Every mesh the registry holds is disposed by the re-initialisation. *)
Lemma session_reinit_disposes_tracked w i r :
  refs_valid w ->
  Array_get (_planes w) i = Some r ->
  fst (onXRSessionInit w) = Normal tt /\
  isDisposed <$> scene_meshes (snd (onXRSessionInit w)) !! r = Some true.
Proof.
  intros Hv Hi. rewrite onXRSessionInit_spec by assumption. split; [reflexivity|].
  cbn [snd with_planes scene_meshes]. rewrite dispose_all_lookup.
  rewrite decide_True by (apply elem_of_Array_present; by exists i).
  destruct (lookup_lt_is_Some_2 _ _ (Hv i r Hi)) as [m ->]. reflexivity.
Qed.

(** A registry without holes is emptied by the re-initialisation. *)
Lemma session_reinit_dense_empties w :
  refs_valid w ->
  Forall is_Some (_planes w) ->
  _planes (snd (onXRSessionInit w)) = [].
Proof.
  intros Hv Hd. rewrite onXRSessionInit_spec by assumption.
  cbn [snd with_planes _planes]. rewrite dispose_all_planes. by apply pop_while_dense.
Qed.

(** A registry with a hole keeps every entry below its topmost hole. *)
Lemma session_reinit_keeps_below_hole w a b :
  refs_valid w ->
  _planes w = a ++ None :: b ->
  Forall is_Some b ->
  _planes (snd (onXRSessionInit w)) = a.
Proof.
  intros Hv Ha Hb. rewrite onXRSessionInit_spec by assumption.
  cbn [snd with_planes _planes]. rewrite dispose_all_planes, Ha. by apply pop_while_hole.
Qed.

(** C3: the mapping is not emptied when the id space has a hole.  With planes
    0 and 2 tracked (and 1 never reported), the re-initialisation disposes
    both meshes, pops slot 2, pops the hole at slot 1 and stops there: slot 0
    still maps plane 0 to its disposed mesh. *)
Theorem session_reinit_stops_at_hole :
  let w' := snd (onXRSessionInit sparse_planes) in
  _planes sparse_planes = [Some 0; None; Some 1] /\
  fst (onXRSessionInit sparse_planes) = Normal tt /\
  _planes w' = [Some 0] /\
  Array_get (_planes w') 0 = Some 0 /\
  isDisposed <$> scene_meshes w' !! 0 = Some true /\
  isDisposed <$> scene_meshes w' !! 1 = Some true.
Proof. vm_compute. repeat split. Qed.

(** ** Removal (C4) *)

(** C4, as stated, fails: after PlaneAdded and PlaneRemoved for plane 0 the
    slot of plane 0 still maps to its (disposed) mesh, and the material of
    that mesh is not disposed. *)
Lemma removal_keeps_mapping :
  let w := snd (onPlaneRemoved (triangle 0) one_plane) in
  Array_get (_planes one_plane) 0 = Some 0 /\
  fst (onPlaneRemoved (triangle 0) one_plane) = Normal tt /\
  Array_get (_planes w) 0 = Some 0 /\
  isDisposed <$> scene_meshes w !! 0 = Some true /\
  material <$> scene_meshes w !! 0 = Some (Some 0) /\
  material_isDisposed <$> scene_materials w !! 0 = Some false.
Proof. vm_compute. repeat split. Qed.

(** C4, amended: PlaneRemoved never throws.  On an id whose slot holds a mesh
    it calls dispose() on that mesh and changes nothing else: the slot keeps
    its entry, the materials are untouched.  On an id whose slot is empty it
    is a no-op.  Applied twice in a row, the second application completes as
    well and leaves the store as the first one left it. *)
Theorem removal_disposes_and_is_idempotent plane w :
  refs_valid w ->
  let w1 := snd (onPlaneRemoved plane w) in
  fst (onPlaneRemoved plane w) = Normal tt /\
  onPlaneRemoved plane w1 = (Normal tt, w1) /\
  _planes w1 = _planes w /\
  scene_materials w1 = scene_materials w /\
  mat w1 = mat w /\
  match Array_get (_planes w) (plane_id plane) with
  | Some r => scene_meshes w1 = alter (set_isDisposed true) r (scene_meshes w)
  | None => w1 = w
  end.
Proof.
  intros Hv. destruct (Array_get (_planes w) (plane_id plane)) as [r|] eqn:Hslot.
  - destruct (lookup_lt_is_Some_2 _ _ (Hv _ _ Hslot)) as [m Hm].
    rewrite (onPlaneRemoved_tracked plane w r m) by assumption. cbn [fst snd].
    repeat split.
    rewrite (onPlaneRemoved_tracked plane (disposed r w) r (set_isDisposed true m)).
    + by rewrite disposed_idemp.
    + exact Hslot.
    + rewrite disposed_lookup, decide_True by reflexivity. by rewrite Hm.
  - rewrite onPlaneRemoved_untracked by assumption. cbn [fst snd].
    repeat split. by apply onPlaneRemoved_untracked.
Qed.

Lemma removal_disposes_and_is_idempotent_witness :
  let w1 := snd (onPlaneRemoved (triangle 0) one_plane) in
  fst (onPlaneRemoved (triangle 0) one_plane) = Normal tt /\
  onPlaneRemoved (triangle 0) w1 = (Normal tt, w1) /\
  _planes w1 = _planes one_plane /\
  scene_materials w1 = scene_materials one_plane /\
  mat w1 = mat one_plane /\
  scene_meshes w1 = alter (set_isDisposed true) 0 (scene_meshes one_plane).
Proof.
  apply (removal_disposes_and_is_idempotent (triangle 0) one_plane).
  intros [|i] r; vm_compute; [intros [= <-]; lia|].
  destruct i; discriminate.
Defined.

(** ** The build operation (C7, C8, C9) *)

Lemma installed_lookup_new plane k w :
  scene_meshes (installed plane k w) !! length (scene_meshes w) =
    Some (polygon_of plane (push_first (polygonDefinition plane)) k).
Proof.
  unfold installed. cbn [scene_meshes]. rewrite lookup_app_r by lia.
  by rewrite Nat.sub_diag.
Qed.

Lemma installed_lookup_old plane k w r :
  r < length (scene_meshes w) ->
  scene_meshes (installed plane k w) !! r = scene_meshes w !! r.
Proof. intros Hr. unfold installed. cbn [scene_meshes]. by apply lookup_app_l. Qed.

Lemma installed_slot plane k w j :
  Array_get (_planes (installed plane k w)) j =
    if decide (plane_id plane = j) then Some (length (scene_meshes w))
    else Array_get (_planes w) j.
Proof. unfold installed. cbn [_planes]. apply Array_get_set. Qed.

Lemma points_push_first p pts :
  points (push_first (Some p :: pts)) = points (Some p :: pts) ++ [p].
Proof. unfold points, push_first. by rewrite omap_app. Qed.

Lemma points_length pts : some_missing pts = false -> length (points pts) = length pts.
Proof.
  induction pts as [|[p|] pts IH]; simpl; intros H; [reflexivity| |discriminate].
  by rewrite IH.
Qed.

Lemma buildable_not_missing pts : buildable pts = true -> some_missing pts = false.
Proof. destruct pts; [discriminate|]. unfold buildable. apply negb_true_iff. Qed.

(** C7, as stated, fails: the two-point outline of [segment 1] has only two
    distinct points once closed, yet [initPolygon] completes, builds mesh 0
    from it and installs it in slot 1, which was empty before. *)
Lemma two_point_outline_is_installed :
  distinct (push_first (polygonDefinition (segment 1))) = 2 /\
  Array_get (_planes World_init) 1 = None /\
  exists w',
    initPolygon (segment 1) None World_init = (Normal (closed (segment 1), 0), w') /\
    Array_get (_planes w') 1 = Some 0 /\
    contour <$> scene_meshes w' !! 0 =
      Some [to_Vector2 origin; to_Vector2 east; to_Vector2 origin].
Proof. split; [|split]; [reflexivity..|]. eexists. vm_compute. repeat split. Qed.

(** C7, amended: the build operation has no degeneracy check.  For every
    outline that has a first point and no missing entry, also when fewer than
    3 distinct points remain after closing, it completes, builds a new mesh
    from the closed outline and installs it in the slot of the id, replacing
    what the slot held. *)
Theorem degenerate_outline_is_installed plane k w :
  buildable (polygonDefinition plane) = true ->
  distinct (push_first (polygonDefinition plane)) < 3 ->
  exists r w',
    initPolygon plane k w = (Normal (closed plane, r), w') /\
    scene_meshes w !! r = None /\
    scene_meshes w' !! r = Some (polygon_of plane (push_first (polygonDefinition plane)) k) /\
    Array_get (_planes w') (plane_id plane) = Some r.
Proof.
  intros Hb _. exists (length (scene_meshes w)), (installed plane k w).
  split; [by apply initPolygon_ok|]. split; [apply lookup_ge_None; lia|].
  split; [apply installed_lookup_new|].
  rewrite installed_slot. by rewrite decide_True.
Qed.

Lemma degenerate_outline_is_installed_witness :
  exists r w',
    initPolygon (segment 1) None one_plane = (Normal (closed (segment 1), r), w') /\
    scene_meshes one_plane !! r = None /\
    scene_meshes w' !! r =
      Some (polygon_of (segment 1) (push_first (polygonDefinition (segment 1))) None) /\
    Array_get (_planes w') 1 = Some r.
Proof.
  apply (degenerate_outline_is_installed (segment 1) None one_plane).
  - reflexivity.
  - vm_compute. lia.
Defined.

(** C8, as stated, fails: the mesh built from the triangle is extruded with
    depth 0.01, not with depth zero. *)
Lemma built_mesh_has_depth :
  exists w' m,
    initPolygon (triangle 0) None World_init = (Normal (closed (triangle 0), 0), w') /\
    scene_meshes w' !! 0 = Some m /\
    depth m = 0.01%Q /\
    ~ (depth m == 0)%Q.
Proof. do 2 eexists. vm_compute. repeat split. discriminate. Qed.

(** C8, amended: for every outline with a first point and no missing entry,
    and every placement, the built mesh is triangulated from the outline
    closed by repeating its first point, is extruded with depth 0.01, has
    computed vertex normals, has the scale, rotation and position the
    placement decomposes into assigned to its transform fields, and is marked
    collidable and a shadow receiver. *)
Theorem initPolygon_builds_placed_mesh plane k w :
  buildable (polygonDefinition plane) = true ->
  exists r w' m p0 q,
    initPolygon plane k w = (Normal (closed plane, r), w') /\
    scene_meshes w' !! r = Some m /\
    head (polygonDefinition plane) = Some (Some p0) /\
    length (points (polygonDefinition plane)) = length (polygonDefinition plane) /\
    contour m = to_Vector2 <$> (points (polygonDefinition plane) ++ [p0]) /\
    depth m = 0.01%Q /\
    hasNormals m = true /\
    rotationQuaternion m = Some q /\
    (scaling m, q, position m) = Matrix_decompose (transformationMatrix plane) /\
    checkCollisions m = true /\
    receiveShadows m = true.
Proof.
  intros Hb. destruct (polygonDefinition plane) as [|[p0|] pts] eqn:Hpts; try discriminate.
  exists (length (scene_meshes w)), (installed plane k w),
    (polygon_of plane (push_first (polygonDefinition plane)) k), p0,
    (m_rotation (transformationMatrix plane)).
  split; [apply initPolygon_ok; by rewrite Hpts|].
  split; [apply installed_lookup_new|].
  split; [reflexivity|].
  split; [by apply points_length, buildable_not_missing|].
  rewrite Hpts. cbn [contour polygon_of]. rewrite points_push_first.
  repeat split.
Qed.

Lemma initPolygon_builds_placed_mesh_witness :
  exists r w' m p0 q,
    initPolygon (triangle 0) None World_init = (Normal (closed (triangle 0), r), w') /\
    scene_meshes w' !! r = Some m /\
    head (polygonDefinition (triangle 0)) = Some (Some p0) /\
    length (points (polygonDefinition (triangle 0))) = length (polygonDefinition (triangle 0)) /\
    contour m = to_Vector2 <$> (points (polygonDefinition (triangle 0)) ++ [p0]) /\
    depth m = 0.01%Q /\
    hasNormals m = true /\
    rotationQuaternion m = Some q /\
    (scaling m, q, position m) = Matrix_decompose (transformationMatrix (triangle 0)) /\
    checkCollisions m = true /\
    receiveShadows m = true.
Proof. apply (initPolygon_builds_placed_mesh (triangle 0) None World_init). reflexivity. Defined.

(** C9, as stated, fails: building from the triangle appends a point to the
    detector's outline and writes slot 0 of the registry. *)
Lemma initPolygon_writes_outline_and_registry :
  exists plane' w',
    initPolygon (triangle 0) None World_init = (Normal (plane', 0), w') /\
    polygonDefinition plane' = polygonDefinition (triangle 0) ++ [Some origin] /\
    polygonDefinition plane' <> polygonDefinition (triangle 0) /\
    Array_get (_planes World_init) 0 = None /\
    Array_get (_planes w') 0 = Some 0.
Proof. do 2 eexists. vm_compute. repeat split. discriminate. Qed.

(** C9, amended: the effects of the build operation are these and no others.
    When it completes, the detector's plane record has the first outline
    point appended to its outline and is otherwise unchanged; one new mesh is
    added to the scene and no existing mesh is changed; the registry slot of
    the plane's id holds the new mesh and every other slot is unchanged; the
    materials and the shared material variable are unchanged.  When it
    throws, it is a TypeError and the scene and the registry are unchanged. *)
Theorem initPolygon_effects plane k w :
  match initPolygon plane k w with
  | (Normal (plane', r), w') =>
      plane_id plane' = plane_id plane /\
      transformationMatrix plane' = transformationMatrix plane /\
      xrPlane_orientation plane' = xrPlane_orientation plane /\
      polygonDefinition plane' =
        polygonDefinition plane ++ [mjoin (head (polygonDefinition plane))] /\
      (exists m, scene_meshes w' = scene_meshes w ++ [m] /\ r = length (scene_meshes w)) /\
      scene_materials w' = scene_materials w /\
      mat w' = mat w /\
      Array_get (_planes w') (plane_id plane) = Some r /\
      (forall j, j <> plane_id plane -> Array_get (_planes w') j = Array_get (_planes w) j)
  | (Throw e, w') => e = TypeError /\ w' = w
  end.
Proof.
  destruct (buildable (polygonDefinition plane)) eqn:Hb.
  - rewrite initPolygon_ok by assumption. repeat split.
    + by eexists.
    + rewrite installed_slot. by rewrite decide_True.
    + intros j Hj. rewrite installed_slot. by rewrite decide_False.
  - rewrite initPolygon_throw by assumption. by split.
Qed.

(** ** The add and update callbacks in one step *)

Lemma missing_not_buildable pts : some_missing pts = true -> buildable pts = false.
Proof. destruct pts; [reflexivity|]. unfold buildable. by intros ->. Qed.

Lemma onPlaneAdded_added plane random w :
  onPlaneAdded plane random w =
    (if buildable (polygonDefinition plane) then Normal tt else Throw TypeError,
     added plane random w).
Proof.
  rewrite onPlaneAdded_spec. unfold added.
  destruct (buildable (polygonDefinition plane)) eqn:Hb.
  - by rewrite initPolygon_ok.
  - by rewrite initPolygon_throw.
Qed.

Lemma onPlaneUpdated_updated plane w r m k :
  Array_get (_planes w) (plane_id plane) = Some r ->
  scene_meshes w !! r = Some m ->
  material m = Some k ->
  onPlaneUpdated plane w =
    (if some_missing (polygonDefinition plane) || buildable (polygonDefinition plane)
     then Normal tt else Throw TypeError,
     updated plane r k w).
Proof.
  intros Hslot Hm Hk. rewrite (onPlaneUpdated_tracked plane w r m k) by assumption.
  unfold updated. destruct (some_missing (polygonDefinition plane)) eqn:Hs.
  - by rewrite (missing_not_buildable _ Hs).
  - destruct (buildable (polygonDefinition plane)) eqn:Hb.
    + by rewrite initPolygon_ok.
    + by rewrite initPolygon_throw.
Qed.

Lemma added_materials plane random w :
  scene_materials (added plane random w) =
    scene_materials w ++
      [{| alpha := 0.35%Q; diffuseColor := random; material_isDisposed := false |}].
Proof. unfold added. by destruct (buildable _). Qed.

Lemma updated_materials plane r k w :
  scene_materials (updated plane r k w) = scene_materials w.
Proof. unfold updated. by destruct (buildable _). Qed.

Lemma added_slot plane random w :
  buildable (polygonDefinition plane) = true ->
  Array_get (_planes (added plane random w)) (plane_id plane) = Some (length (scene_meshes w)) /\
  scene_meshes (added plane random w) !! length (scene_meshes w) =
    Some (polygon_of plane (push_first (polygonDefinition plane))
            (Some (length (scene_materials w)))).
Proof.
  intros Hb. unfold added. rewrite Hb. split.
  - rewrite installed_slot. by rewrite decide_True.
  - apply (installed_lookup_new plane _ (with_new_material random w)).
Qed.

(** After an update, the slot holds either the old mesh, disposed, or a new
    mesh; in both cases with the material [k]. *)
Lemma updated_slot plane r m k w :
  Array_get (_planes w) (plane_id plane) = Some r ->
  scene_meshes w !! r = Some m ->
  exists r' m',
    Array_get (_planes (updated plane r k w)) (plane_id plane) = Some r' /\
    scene_meshes (updated plane r k w) !! r' = Some m' /\
    (if buildable (polygonDefinition plane)
     then r' = length (scene_meshes w) /\
          m' = polygon_of plane (push_first (polygonDefinition plane)) (Some k)
     else r' = r /\ m' = set_isDisposed true m).
Proof.
  intros Hslot Hm. unfold updated. destruct (buildable (polygonDefinition plane)).
  - exists (length (scene_meshes w)), (polygon_of plane (push_first (polygonDefinition plane)) (Some k)).
    split; [|split; [|done]].
    + rewrite installed_slot. rewrite decide_True by done. by rewrite disposed_length.
    + pose proof (installed_lookup_new plane (Some k) (disposed r (with_mat (Some k) w))) as H.
      rewrite disposed_length in H. exact H.
  - exists r, (set_isDisposed true m). split; [exact Hslot|]. split; [|done].
    rewrite disposed_lookup, decide_True by done. cbn [with_mat scene_meshes].
    by rewrite Hm.
Qed.

(** ** One mesh per id (C5) *)

Lemma deliver_cons e es w : deliver (e :: es) w = deliver es (snd (dispatch e w)).
Proof. reflexivity. Qed.

Lemma deliver_snoc es e w : deliver (es ++ [e]) w = snd (dispatch e (deliver es w)).
Proof. unfold deliver. by rewrite foldl_app. Qed.

Lemma holds_added plane random w :
  holds (plane_id plane) w \/ buildable (polygonDefinition plane) = true ->
  holds (plane_id plane) (added plane random w).
Proof.
  destruct (buildable (polygonDefinition plane)) eqn:Hb.
  - intros _. destruct (added_slot plane random w Hb) as [Hslot Hmesh].
    by eexists _, _, _.
  - intros [H|?]; [|discriminate]. unfold added. by rewrite Hb.
Qed.

Lemma holds_updated plane w :
  holds (plane_id plane) w ->
  holds (plane_id plane) (snd (onPlaneUpdated plane w)).
Proof.
  intros (r & m & k & Hslot & Hm & Hk).
  rewrite (onPlaneUpdated_updated plane w r m k) by assumption. cbn [snd].
  destruct (updated_slot plane r m k w Hslot Hm) as (r' & m' & Hslot' & Hm' & Hcase).
  exists r', m', k. split; [exact Hslot'|]. split; [exact Hm'|].
  destruct (buildable (polygonDefinition plane)); destruct Hcase as [-> ->]; done.
Qed.

Lemma holds_deliver i es w :
  Forall (add_or_update_for i) es ->
  holds i w \/ Exists (fun e => builds e = true) es ->
  holds i (deliver es w).
Proof.
  intros Hes. revert w. induction Hes as [|e es He Hes IH]; intros w Hw.
  - destruct Hw as [Hw|Hw]; [exact Hw|]. by apply Exists_nil in Hw.
  - rewrite deliver_cons. apply IH.
    destruct e as [plane random|plane|plane|]; cbn [add_or_update_for] in He;
      try contradiction; subst i; cbn [dispatch].
    + rewrite onPlaneAdded_added. cbn [snd].
      destruct Hw as [Hw|Hw].
      * left. apply holds_added. by left.
      * apply Exists_cons in Hw as [Hb|Hw]; [|by right].
        left. apply holds_added. by right.
    + destruct Hw as [Hw|Hw].
      * left. by apply holds_updated.
      * apply Exists_cons in Hw as [Hb|Hw]; [discriminate|by right].
Qed.

(** C5, as stated, fails: a second PlaneAdded for plane 0 stores a new mesh
    in slot 0 and leaves the mesh it replaces undisposed. *)
Lemma second_add_leaks_replaced_mesh :
  let w := deliver [PlaneAdded (triangle 0) red; PlaneAdded (triangle 0) blue] World_init in
  Array_get (_planes one_plane) 0 = Some 0 /\
  Array_get (_planes w) 0 = Some 1 /\
  isDisposed <$> scene_meshes w !! 0 = Some false.
Proof. vm_compute. repeat split. Qed.

(** C5, amended: after every sequence of PlaneAdded and PlaneUpdated events
    for an id that contains a PlaneAdded whose outline has a first point and
    no missing entry, the registry holds exactly one mesh for the id; a
    further PlaneUpdated leaves one mesh for the id with the same material
    and the materials untouched; and when that update installs a new mesh,
    the mesh it replaces has been disposed (its material retained) in the
    store in which the new mapping is then stored. *)
Theorem update_disposes_replaced_mesh i es plane w :
  Forall (add_or_update_for i) es ->
  Exists (fun e => builds e = true) es ->
  plane_id plane = i ->
  let w0 := deliver es w in
  let w' := deliver (es ++ [PlaneUpdated plane]) w in
  exists r m k,
    Array_get (_planes w0) i = Some r /\
    scene_meshes w0 !! r = Some m /\
    material m = Some k /\
    (exists r' m',
        Array_get (_planes w') i = Some r' /\
        scene_meshes w' !! r' = Some m' /\
        material m' = Some k) /\
    scene_materials w' = scene_materials w0 /\
    (buildable (polygonDefinition plane) = true ->
       exists w1 r',
         onPlaneUpdated plane w0 = (Normal tt, snd (initPolygon plane (Some k) w1)) /\
         Array_get (_planes w1) i = Some r /\
         scene_meshes w1 !! r = Some (set_isDisposed true m) /\
         Array_get (_planes w') i = Some r' /\
         r' <> r /\
         scene_meshes w' !! r = Some (set_isDisposed true m)).
Proof.
  intros Hes Hex Hid w0 w'. subst w0 w'. rewrite deliver_snoc. cbn [dispatch].
  destruct (holds_deliver i es w Hes (or_intror Hex)) as (r & m & k & Hslot & Hm & Hk).
  subst i. set (w0 := deliver es w) in *.
  exists r, m, k. split; [exact Hslot|]. split; [exact Hm|]. split; [exact Hk|].
  rewrite (onPlaneUpdated_updated plane w0 r m k) by assumption. cbn [snd].
  destruct (updated_slot plane r m k w0 Hslot Hm) as (r' & m' & Hslot' & Hm' & Hcase).
  split.
  { exists r', m'. split; [exact Hslot'|]. split; [exact Hm'|].
    destruct (buildable (polygonDefinition plane)); destruct Hcase as [-> ->]; done. }
  split; [apply updated_materials|].
  intros Hb. rewrite Hb in Hcase. destruct Hcase as [-> ->].
  assert (r < length (scene_meshes w0)) as Hr by (by apply lookup_lt_Some with m).
  assert (scene_meshes (disposed r (with_mat (Some k) w0)) !! r = Some (set_isDisposed true m))
    as Hdisp.
  { rewrite disposed_lookup, decide_True by done. cbn [with_mat scene_meshes]. by rewrite Hm. }
  exists (disposed r (with_mat (Some k) w0)), (length (scene_meshes w0)).
  split.
  { rewrite initPolygon_ok by assumption. unfold updated. by rewrite Hb, orb_true_r. }
  split; [exact Hslot|]. split; [exact Hdisp|]. split; [exact Hslot'|]. split; [lia|].
  unfold updated. rewrite Hb, installed_lookup_old; [exact Hdisp|].
  by rewrite disposed_length.
Qed.

Lemma update_disposes_replaced_mesh_witness :
  let w0 := deliver [PlaneAdded (triangle 0) red] World_init in
  let w' := deliver ([PlaneAdded (triangle 0) red] ++ [PlaneUpdated (segment 0)]) World_init in
  exists r m k,
    Array_get (_planes w0) 0 = Some r /\
    scene_meshes w0 !! r = Some m /\
    material m = Some k /\
    (exists r' m',
        Array_get (_planes w') 0 = Some r' /\
        scene_meshes w' !! r' = Some m' /\
        material m' = Some k) /\
    scene_materials w' = scene_materials w0 /\
    (buildable (polygonDefinition (segment 0)) = true ->
       exists w1 r',
         onPlaneUpdated (segment 0) w0 = (Normal tt, snd (initPolygon (segment 0) (Some k) w1)) /\
         Array_get (_planes w1) 0 = Some r /\
         scene_meshes w1 !! r = Some (set_isDisposed true m) /\
         Array_get (_planes w') 0 = Some r' /\
         r' <> r /\
         scene_meshes w' !! r = Some (set_isDisposed true m)).
Proof.
  apply (update_disposes_replaced_mesh 0 [PlaneAdded (triangle 0) red] (segment 0) World_init).
  - repeat constructor.
  - apply Exists_cons_hd. reflexivity.
  - reflexivity.
Defined.

(** ** Well-formed stores *)

Lemma wf_refs_valid w : wf_World w -> refs_valid w.
Proof.
  intros [Hm _] i r Hi. destruct (Hm i r Hi) as (m & k & Hr & _).
  by apply lookup_lt_Some with m.
Qed.

Lemma wf_World_init : wf_World World_init.
Proof. split; intros [|i]; discriminate. Qed.

Lemma wf_with_new_material random w : wf_World w -> wf_World (with_new_material random w).
Proof.
  intros [Hm Hinj]. split; [|exact Hinj].
  intros i r Hi. destruct (Hm i r Hi) as (m & k & Hr & Hk & Hlt).
  exists m, k. cbn [with_new_material scene_meshes scene_materials].
  rewrite length_app. cbn [length]. repeat split; [assumption..|lia].
Qed.

Lemma wf_with_mat k w : wf_World w -> wf_World (with_mat k w).
Proof. intros H. exact H. Qed.

Lemma wf_disposed r w : wf_World w -> wf_World (disposed r w).
Proof.
  intros [Hm Hinj]. split; [|exact Hinj].
  intros i r' Hi. destruct (Hm i r' Hi) as (m & k & Hr & Hk & Hlt).
  rewrite disposed_lookup. case_decide.
  - exists (set_isDisposed true m), k. by rewrite Hr.
  - by exists m, k.
Qed.

Lemma wf_dispose_all rs w : wf_World w -> wf_World (dispose_all rs w).
Proof.
  revert w. induction rs as [|r rs IH]; intros w Hw; [exact Hw|].
  rewrite dispose_all_cons. by apply IH, wf_disposed.
Qed.

Lemma wf_installed plane k w :
  wf_World w -> k < length (scene_materials w) -> wf_World (installed plane (Some k) w).
Proof.
  intros Hw Hk. pose proof (wf_refs_valid w Hw) as Hv. destruct Hw as [Hm Hinj]. split.
  - intros i r. rewrite installed_slot. case_decide as Hi.
    + intros [= <-]. rewrite installed_lookup_new. by eexists _, k.
    + intros Hr. rewrite installed_lookup_old by by apply (Hv i). by apply (Hm i).
  - intros i j r. rewrite !installed_slot.
    destruct (decide (plane_id plane = i)) as [Hi|Hi],
             (decide (plane_id plane = j)) as [Hj|Hj].
    + congruence.
    + intros [= <-] Hr. apply Hv in Hr. lia.
    + intros Hr [= <-]. apply Hv in Hr. lia.
    + apply Hinj.
Qed.

Lemma Array_get_pop_while {A} (a : list (option A)) i x :
  Array_get (pop_while a) i = Some x -> Array_get a i = Some x.
Proof.
  intros H. destruct (pop_while_prefix a) as [rest Hrest].
  rewrite Hrest at 1. unfold Array_get.
  rewrite lookup_app_l by (by apply Array_get_Some_lt with x). exact H.
Qed.

Lemma wf_dispatch e w : wf_World w -> wf_World (snd (dispatch e w)).
Proof.
  intros Hw. destruct e as [plane random|plane|plane|]; cbn [dispatch].
  - rewrite onPlaneAdded_added. cbn [snd]. unfold added.
    destruct (buildable (polygonDefinition plane)).
    + apply wf_installed; [by apply wf_with_new_material|].
      cbn [with_new_material scene_materials]. rewrite length_app. cbn [length]. lia.
    + by apply wf_with_new_material.
  - destruct (Array_get (_planes w) (plane_id plane)) as [r|] eqn:Hslot.
    + destruct (proj1 Hw _ _ Hslot) as (m & k & Hm & Hk & Hlt).
      rewrite (onPlaneUpdated_updated plane w r m k) by assumption. cbn [snd].
      unfold updated. destruct (buildable (polygonDefinition plane)).
      * apply wf_installed; [by apply wf_disposed, wf_with_mat|exact Hlt].
      * by apply wf_disposed, wf_with_mat.
    + by rewrite onPlaneUpdated_untracked.
  - destruct (Array_get (_planes w) (plane_id plane)) as [r|] eqn:Hslot.
    + destruct (proj1 Hw _ _ Hslot) as (m & k & Hm & _).
      rewrite (onPlaneRemoved_tracked plane w r m) by assumption. by apply wf_disposed.
    + by rewrite onPlaneRemoved_untracked.
  - rewrite onXRSessionInit_spec by by apply wf_refs_valid. cbn [snd].
    apply (wf_dispose_all (Array_present (_planes w))) in Hw. destruct Hw as [Hm Hinj].
    split.
    + intros i r Hi%Array_get_pop_while. by apply (Hm i).
    + intros i j r Hi%Array_get_pop_while Hj%Array_get_pop_while. by apply (Hinj i j r).
Qed.

(** Every store the callbacks reach from a well-formed one is well-formed. *)
Lemma wf_deliver es w : wf_World w -> wf_World (deliver es w).
Proof.
  revert w. induction es as [|e es IH]; intros w Hw; [exact Hw|].
  rewrite deliver_cons. by apply IH, wf_dispatch.
Qed.

(** ** Independence of ids (C10) *)

Lemma view_with_new_material random i w :
  wf_World w -> view i (with_new_material random w) = view i w.
Proof.
  intros [Hm _]. unfold view. cbn [with_new_material _planes scene_meshes scene_materials].
  destruct (Array_get (_planes w) i) as [r|] eqn:Hi; [|reflexivity].
  destruct (Hm i r Hi) as (m & k & -> & -> & Hlt). by rewrite lookup_app_l.
Qed.

Lemma view_disposed r i w :
  view i (disposed r w) =
    if decide (Array_get (_planes w) i = Some r) then dispose_view (view i w) else view i w.
Proof.
  unfold view. cbn [disposed with_meshes _planes scene_materials scene_meshes].
  destruct (Array_get (_planes w) i) as [r'|] eqn:Hi.
  - destruct (decide (r' = r)) as [->|Hne].
    + rewrite decide_True by done. rewrite list_lookup_alter_eq.
      by destruct (scene_meshes w !! r).
    + rewrite decide_False by congruence. by rewrite list_lookup_alter_ne.
  - by rewrite decide_False.
Qed.

Lemma view_installed plane k i w :
  refs_valid w ->
  view i (installed plane (Some k) w) =
    if decide (plane_id plane = i)
    then Some (polygon_of plane (push_first (polygonDefinition plane)) None,
               scene_materials w !! k)
    else view i w.
Proof.
  intros Hv. unfold view at 1. rewrite installed_slot. case_decide as Hi.
  - by rewrite installed_lookup_new.
  - unfold view. destruct (Array_get (_planes w) i) as [r|] eqn:Hr; [|reflexivity].
    by rewrite installed_lookup_old by by apply (Hv i).
Qed.

Lemma view_slot_None i w : Array_get (_planes w) i = None -> view i w = None.
Proof. unfold view. by intros ->. Qed.

Lemma view_slot_Some i w r m k :
  Array_get (_planes w) i = Some r ->
  scene_meshes w !! r = Some m ->
  material m = Some k ->
  view i w = Some (strip m, scene_materials w !! k).
Proof. unfold view. by intros -> -> ->. Qed.

(** A plane notification for another id leaves what the registry shows for
    [i] as it is; one for [i] changes it as [track] says, whatever the
    shared variable [mat] and the other slots hold. *)
Lemma view_dispatch i e w :
  wf_World w ->
  plane_notification e ->
  view i (snd (dispatch e w)) = if about i e then track e (view i w) else view i w.
Proof.
  intros Hw He. pose proof (wf_refs_valid w Hw) as Hv.
  destruct e as [plane random|plane|plane|]; [..|by destruct He];
    unfold about; cbn [dispatch event_id track].
  - rewrite onPlaneAdded_added. cbn [snd]. unfold added.
    destruct (buildable (polygonDefinition plane)).
    + rewrite view_installed by by apply wf_refs_valid, wf_with_new_material.
      rewrite view_with_new_material by assumption.
      cbn [with_new_material scene_materials]. rewrite lookup_app_r by lia.
      rewrite Nat.sub_diag. cbn [lookup list_lookup].
      destruct (decide (plane_id plane = i)) as [->|Hne].
      * by rewrite bool_decide_eq_true_2.
      * by rewrite bool_decide_eq_false_2 by congruence.
    + rewrite view_with_new_material by assumption. by destruct (bool_decide _).
  - destruct (Array_get (_planes w) (plane_id plane)) as [r|] eqn:Hslot.
    + destruct (proj1 Hw _ _ Hslot) as (m & k & Hm & Hk & Hlt).
      rewrite (onPlaneUpdated_updated plane w r m k) by assumption. cbn [snd].
      assert (view i (disposed r (with_mat (Some k) w)) =
              if decide (plane_id plane = i) then dispose_view (view i w) else view i w)
        as Hdisp.
      { rewrite view_disposed. cbn [with_mat _planes].
        destruct (decide (plane_id plane = i)) as [<-|Hne].
        - by rewrite decide_True.
        - rewrite decide_False; [reflexivity|].
          intros Hi. apply Hne. by apply (proj2 Hw _ _ r). }
      unfold updated. destruct (buildable (polygonDefinition plane)).
      * rewrite view_installed
          by (intros j r' Hj; rewrite disposed_length; by apply (Hv j)).
        rewrite Hdisp.
        destruct (decide (plane_id plane = i)) as [<-|Hne].
        -- rewrite bool_decide_eq_true_2 by done.
           by rewrite (view_slot_Some _ w r m k).
        -- by rewrite bool_decide_eq_false_2 by congruence.
      * rewrite Hdisp.
        destruct (decide (plane_id plane = i)) as [<-|Hne].
        -- rewrite bool_decide_eq_true_2 by done.
           by rewrite (view_slot_Some _ w r m k).
        -- by rewrite bool_decide_eq_false_2 by congruence.
    + rewrite onPlaneUpdated_untracked by assumption. cbn [snd].
      destruct (decide (plane_id plane = i)) as [<-|Hne].
      * rewrite bool_decide_eq_true_2 by done. by rewrite view_slot_None.
      * by rewrite bool_decide_eq_false_2 by congruence.
  - destruct (Array_get (_planes w) (plane_id plane)) as [r|] eqn:Hslot.
    + destruct (proj1 Hw _ _ Hslot) as (m & k & Hm & _).
      rewrite (onPlaneRemoved_tracked plane w r m) by assumption. cbn [snd].
      rewrite view_disposed.
      destruct (decide (plane_id plane = i)) as [<-|Hne].
      * rewrite bool_decide_eq_true_2 by done. by rewrite decide_True.
      * rewrite bool_decide_eq_false_2 by congruence.
        rewrite decide_False; [reflexivity|].
        intros Hi. apply Hne. by apply (proj2 Hw _ _ r).
    + rewrite onPlaneRemoved_untracked by assumption. cbn [snd].
      destruct (decide (plane_id plane = i)) as [<-|Hne].
      * rewrite bool_decide_eq_true_2 by done. by rewrite view_slot_None.
      * by rewrite bool_decide_eq_false_2 by congruence.
Qed.

(** What the registry shows for [i] after a sequence of plane notifications
    is computed from the events about [i] alone. *)
Lemma view_deliver i es w :
  wf_World w ->
  Forall plane_notification es ->
  view i (deliver es w) = foldl (fun v e => track e v) (view i w) (filter (about i) es).
Proof.
  intros Hw Hes. revert w Hw. induction Hes as [|e es He Hes IH]; intros w Hw; [reflexivity|].
  rewrite deliver_cons, IH by by apply wf_dispatch.
  rewrite view_dispatch by assumption.
  rewrite filter_cons. by destruct (about i e).
Qed.

(** The value a callback finds in the shared variable [mat] has no influence
    on what a plane notification leaves in the registry for any id. *)
Lemma stale_mat_is_not_observed i e k w :
  wf_World w ->
  plane_notification e ->
  view i (snd (dispatch e (with_mat k w))) = view i (snd (dispatch e w)).
Proof.
  intros Hw He. by rewrite !view_dispatch by (assumption || by apply wf_with_mat).
Qed.

(** C10, as stated, fails.  The callbacks do share one variable: after the
    adds for planes 0 and 1 it holds the material of plane 1.  And two event
    sequences that differ only in an event for plane 1 end with different
    registry contents for plane 0: without plane 1 the registry has a hole,
    the re-initialisation stops popping there, and slot 0 keeps its mesh;
    with plane 1 slot 0 is emptied. *)
Lemma other_id_changes_outcome :
  let esA := [PlaneAdded (triangle 0) red; PlaneAdded (triangle 2) blue;
              SessionReinitialized] in
  let esB := [PlaneAdded (triangle 0) red; PlaneAdded (triangle 1) red;
              PlaneAdded (triangle 2) blue; SessionReinitialized] in
  mat (deliver [PlaneAdded (triangle 0) red; PlaneAdded (triangle 1) red] World_init) = Some 1 /\
  filter (concerns 0) esA = filter (concerns 0) esB /\
  Array_get (_planes (deliver esA World_init)) 0 = Some 0 /\
  Array_get (_planes (deliver esB World_init)) 0 = None /\
  view 0 (deliver esA World_init) <> view 0 (deliver esB World_init).
Proof. vm_compute. repeat split. discriminate. Qed.

(** C10, amended: the callbacks share the variable [mat], but in every
    well-formed store each callback assigns it before reading it.  For any two
    sequences of PlaneAdded, PlaneUpdated and PlaneRemoved notifications that
    differ only in events for other ids, delivered to the same well-formed
    store, the registry shows the same for the given id: the same mesh, field
    by field, and the same material, field by field. *)
Theorem ids_are_independent i esA esB w :
  wf_World w ->
  Forall plane_notification esA ->
  Forall plane_notification esB ->
  filter (about i) esA = filter (about i) esB ->
  view i (deliver esA w) = view i (deliver esB w).
Proof.
  intros Hw HA HB Heq. rewrite !view_deliver by assumption. by rewrite Heq.
Qed.

Lemma ids_are_independent_witness :
  view 0 (deliver [PlaneAdded (triangle 0) red; PlaneUpdated (segment 0)] World_init) =
  view 0 (deliver [PlaneAdded (triangle 1) blue; PlaneAdded (triangle 0) red;
                   PlaneUpdated (stale_triangle 1); PlaneUpdated (triangle 7);
                   PlaneRemoved (triangle 1); PlaneUpdated (segment 0)] World_init).
Proof.
  apply (ids_are_independent 0
           [PlaneAdded (triangle 0) red; PlaneUpdated (segment 0)]
           [PlaneAdded (triangle 1) blue; PlaneAdded (triangle 0) red;
            PlaneUpdated (stale_triangle 1); PlaneUpdated (triangle 7);
            PlaneRemoved (triangle 1); PlaneUpdated (segment 0)]
           World_init).
  - split; intros [|?]; discriminate.
  - repeat (constructor; [discriminate|]). constructor.
  - repeat (constructor; [discriminate|]). constructor.
  - reflexivity.
Defined.

(** ** Materials (C6) *)

Lemma dispose_all_materials rs w : scene_materials (dispose_all rs w) = scene_materials w.
Proof.
  revert w. induction rs as [|r rs IH]; intros w; [reflexivity|].
  by rewrite dispose_all_cons, IH.
Qed.

Lemma dispatch_materials e w :
  wf_World w ->
  scene_materials (snd (dispatch e w)) = scene_materials w ++ constructed e.
Proof.
  intros Hw. destruct e as [plane random|plane|plane|]; cbn [dispatch constructed].
  - rewrite onPlaneAdded_added. apply added_materials.
  - rewrite app_nil_r.
    destruct (Array_get (_planes w) (plane_id plane)) as [r|] eqn:Hslot.
    + destruct (proj1 Hw _ _ Hslot) as (m & k & Hm & Hk & _).
      rewrite (onPlaneUpdated_updated plane w r m k) by assumption. apply updated_materials.
    + by rewrite onPlaneUpdated_untracked.
  - rewrite app_nil_r.
    destruct (Array_get (_planes w) (plane_id plane)) as [r|] eqn:Hslot.
    + destruct (proj1 Hw _ _ Hslot) as (m & k & Hm & _).
      by rewrite (onPlaneRemoved_tracked plane w r m).
    + by rewrite onPlaneRemoved_untracked.
  - rewrite app_nil_r, onXRSessionInit_spec by by apply wf_refs_valid.
    apply dispose_all_materials.
Qed.

(** A material of the scene stays what it is, at its place. *)
Lemma deliver_materials_lookup es w k x :
  wf_World w ->
  scene_materials w !! k = Some x ->
  scene_materials (deliver es w) !! k = Some x.
Proof.
  revert w. induction es as [|e es IH]; intros w Hw Hk; [exact Hk|].
  rewrite deliver_cons. apply IH; [by apply wf_dispatch|].
  rewrite dispatch_materials by assumption. by apply lookup_app_l_Some.
Qed.

Lemma has_material_disposed i M r w : has_material i M w -> has_material i M (disposed r w).
Proof.
  intros (r0 & m & Hslot & Hm & Hk).
  destruct (decide (r = r0)) as [->|Hne].
  - exists r0, (set_isDisposed true m). split; [exact Hslot|]. split; [|exact Hk].
    by rewrite disposed_lookup, decide_True, Hm.
  - exists r0, m. split; [exact Hslot|]. split; [|exact Hk].
    by rewrite disposed_lookup, decide_False.
Qed.

Lemma has_material_installed_other i M plane k w :
  plane_id plane <> i -> has_material i M w -> has_material i M (installed plane k w).
Proof.
  intros Hne (r & m & Hslot & Hm & Hk). exists r, m.
  split; [by rewrite installed_slot, decide_False|]. split; [|exact Hk].
  rewrite installed_lookup_old; [exact Hm|]. by apply lookup_lt_Some with m.
Qed.

Lemma has_material_installed plane k w :
  has_material (plane_id plane) k (installed plane (Some k) w).
Proof.
  eexists _, _. split; [by rewrite installed_slot, decide_True|].
  split; [apply installed_lookup_new|reflexivity].
Qed.

(** The material object of the mesh of an id is only ever replaced by a
    PlaneAdded for that id. *)
Lemma has_material_dispatch i M e w :
  wf_World w ->
  plane_notification e ->
  ~ add_for i e ->
  has_material i M w ->
  has_material i M (snd (dispatch e w)).
Proof.
  intros Hw He Hadd HM.
  destruct e as [plane random|plane|plane|]; [..|by destruct He]; cbn [dispatch].
  - rewrite onPlaneAdded_added. cbn [snd]. unfold added.
    assert (has_material i M (with_new_material random w)) as HM' by exact HM.
    destruct (buildable (polygonDefinition plane)); [|exact HM'].
    by apply has_material_installed_other.
  - destruct (Array_get (_planes w) (plane_id plane)) as [r|] eqn:Hslot.
    + destruct (proj1 Hw _ _ Hslot) as (m & k & Hm & Hk & _).
      rewrite (onPlaneUpdated_updated plane w r m k) by assumption. cbn [snd].
      assert (has_material i M (disposed r (with_mat (Some k) w))) as HM'
        by by apply has_material_disposed.
      unfold updated. destruct (buildable (polygonDefinition plane)); [|exact HM'].
      destruct (decide (plane_id plane = i)) as [<-|Hne].
      * destruct HM as (r0 & m0 & Hslot0 & Hm0 & Hk0).
        assert (k = M) as -> by congruence.
        apply has_material_installed.
      * by apply has_material_installed_other.
    + by rewrite onPlaneUpdated_untracked.
  - destruct (Array_get (_planes w) (plane_id plane)) as [r|] eqn:Hslot.
    + destruct (proj1 Hw _ _ Hslot) as (m & k & Hm & _).
      rewrite (onPlaneRemoved_tracked plane w r m) by assumption.
      by apply has_material_disposed.
    + by rewrite onPlaneRemoved_untracked.
Qed.

Lemma has_material_deliver i M es w :
  wf_World w ->
  Forall plane_notification es ->
  Forall (fun e => ~ add_for i e) es ->
  has_material i M w ->
  has_material i M (deliver es w).
Proof.
  intros Hw Hes. revert w Hw. induction Hes as [|e es He Hes IH]; intros w Hw Hadd HM;
    [exact HM|].
  apply Forall_cons_1 in Hadd as [Hadd Hadds]. rewrite deliver_cons.
  apply IH; [by apply wf_dispatch|exact Hadds|by apply has_material_dispatch].
Qed.

(** C6: PlaneAdded always constructs a new material, with alpha 0.35 and the
    colour that Color3.Random() returns, whatever that is: over any sample of
    draws the colours of the constructed materials are the sample itself, so
    the colour is distributed as the engine's draw is.  The mesh the add
    builds gets that material [M].  After any further PlaneAdded, PlaneUpdated
    and PlaneRemoved notifications, for this id or for others, among them no
    PlaneAdded for this id, a PlaneUpdated for the id leaves a tracked mesh
    with the very same material reference [M]; the material is as the add
    made it, and the update constructs no other one.  With an outline that
    has a first point and no missing entry the update completes and the
    tracked mesh is a newly built one. *)
Theorem added_material_is_fresh_and_kept plane random es plane' w :
  wf_World w ->
  buildable (polygonDefinition plane) = true ->
  Forall plane_notification es ->
  Forall (fun e => ~ add_for (plane_id plane) e) es ->
  plane_id plane' = plane_id plane ->
  let M := length (scene_materials w) in
  let made := {| alpha := 0.35%Q; diffuseColor := random; material_isDisposed := false |} in
  let w1 := snd (onPlaneAdded plane random w) in
  let w2 := deliver es w1 in
  let w3 := snd (onPlaneUpdated plane' w2) in
  scene_materials w !! M = None /\
  scene_materials w1 !! M = Some made /\
  (forall draws : list Color3,
      omap (fun draw => diffuseColor <$> scene_materials (snd (onPlaneAdded plane draw w)) !! M)
        draws = draws) /\
  fst (onPlaneAdded plane random w) = Normal tt /\
  (exists r m,
      Array_get (_planes w1) (plane_id plane) = Some r /\
      scene_meshes w !! r = None /\
      scene_meshes w1 !! r = Some m /\
      material m = Some M) /\
  (exists r' m',
      Array_get (_planes w3) (plane_id plane) = Some r' /\
      scene_meshes w3 !! r' = Some m' /\
      material m' = Some M /\
      (buildable (polygonDefinition plane') = true ->
         fst (onPlaneUpdated plane' w2) = Normal tt /\ scene_meshes w2 !! r' = None)) /\
  scene_materials w3 !! M = Some made /\
  scene_materials w3 = scene_materials w2.
Proof.
  intros Hw Hb Hes Hadd Hid M made w1 w2 w3.
  assert (forall draw,
            scene_materials (snd (onPlaneAdded plane draw w)) !! M =
            Some {| alpha := 0.35%Q; diffuseColor := draw; material_isDisposed := false |})
    as Hmade.
  { intros draw. rewrite onPlaneAdded_added. cbn [snd].
    rewrite added_materials, lookup_app_r by (unfold M; lia).
    unfold M. by rewrite Nat.sub_diag. }
  assert (wf_World w1) as Hw1 by apply (wf_dispatch (PlaneAdded plane random) w Hw).
  assert (wf_World w2) as Hw2 by by apply wf_deliver.
  assert (has_material (plane_id plane) M w1) as HM1.
  { subst w1. rewrite onPlaneAdded_added. cbn [snd].
    destruct (added_slot plane random w Hb) as [Hslot Hmesh]. by eexists _, _. }
  destruct (has_material_deliver _ _ es w1 Hw1 Hes Hadd HM1) as (r2 & m2 & Hslot2 & Hm2 & Hk2).
  fold w2 in Hslot2, Hm2.
  assert (onPlaneUpdated plane' w2 =
          (if some_missing (polygonDefinition plane') || buildable (polygonDefinition plane')
           then Normal tt else Throw TypeError,
           updated plane' r2 M w2)) as Hupd.
  { apply (onPlaneUpdated_updated plane' w2 r2 m2 M); [by rewrite Hid|assumption..]. }
  split; [apply lookup_ge_None; unfold M; lia|].
  split; [apply Hmade|].
  split.
  { intros draws. induction draws as [|draw draws IH]; [reflexivity|].
    cbn [omap list_omap]. by rewrite Hmade, IH. }
  split; [by rewrite onPlaneAdded_added, Hb|].
  split.
  { subst w1. rewrite onPlaneAdded_added. cbn [snd].
    destruct (added_slot plane random w Hb) as [Hslot Hmesh].
    eexists _, _. split; [exact Hslot|]. split; [apply lookup_ge_None; lia|].
    split; [exact Hmesh|reflexivity]. }
  split; [|split].
  - subst w3. rewrite Hupd. cbn [fst snd].
    destruct (updated_slot plane' r2 m2 M w2 ltac:(by rewrite Hid) Hm2)
      as (r' & m' & Hslot' & Hmesh' & Hcase).
    exists r', m'. rewrite <- Hid. split; [exact Hslot'|]. split; [exact Hmesh'|].
    destruct (buildable (polygonDefinition plane')) eqn:Hb'.
    + destruct Hcase as [-> ->]. split; [reflexivity|]. intros _.
      rewrite orb_true_r. split; [reflexivity|]. apply lookup_ge_None. lia.
    + destruct Hcase as [-> ->]. split; [exact Hk2|]. discriminate.
  - subst w3. rewrite Hupd. cbn [snd]. rewrite updated_materials.
    apply deliver_materials_lookup; [exact Hw1|]. apply Hmade.
  - subst w3. rewrite Hupd. cbn [snd]. apply updated_materials.
Qed.

Lemma added_material_is_fresh_and_kept_witness :
  let es := [PlaneAdded (triangle 1) blue; PlaneUpdated (stale_triangle 0);
             PlaneRemoved (triangle 0); PlaneUpdated (segment 1)] in
  let made := {| alpha := 0.35%Q; diffuseColor := red; material_isDisposed := false |} in
  let w1 := snd (onPlaneAdded (triangle 0) red World_init) in
  let w2 := deliver es w1 in
  let w3 := snd (onPlaneUpdated (segment 0) w2) in
  scene_materials World_init !! 0 = None /\
  scene_materials w1 !! 0 = Some made /\
  (forall draws : list Color3,
      omap (fun draw =>
              diffuseColor <$> scene_materials (snd (onPlaneAdded (triangle 0) draw World_init)) !! 0)
        draws = draws) /\
  fst (onPlaneAdded (triangle 0) red World_init) = Normal tt /\
  (exists r m,
      Array_get (_planes w1) 0 = Some r /\
      scene_meshes World_init !! r = None /\
      scene_meshes w1 !! r = Some m /\
      material m = Some 0) /\
  (exists r' m',
      Array_get (_planes w3) 0 = Some r' /\
      scene_meshes w3 !! r' = Some m' /\
      material m' = Some 0 /\
      (buildable (polygonDefinition (segment 0)) = true ->
         fst (onPlaneUpdated (segment 0) w2) = Normal tt /\ scene_meshes w2 !! r' = None)) /\
  scene_materials w3 !! 0 = Some made /\
  scene_materials w3 = scene_materials w2.
Proof.
  apply (added_material_is_fresh_and_kept (triangle 0) red
           [PlaneAdded (triangle 1) blue; PlaneUpdated (stale_triangle 0);
            PlaneRemoved (triangle 0); PlaneUpdated (segment 1)]
           (segment 0) World_init).
  - split; intros [|?]; discriminate.
  - reflexivity.
  - repeat (constructor; [discriminate|]). constructor.
  - repeat (constructor; [cbn; first [discriminate | tauto]|]). constructor.
  - reflexivity.
Defined.

(** * Further properties of the plane callbacks *)

(** ** Invariants of the reachable stores *)

Lemma dispatch_mesh e w r m :
  wf_World w ->
  scene_meshes w !! r = Some m ->
  scene_meshes (snd (dispatch e w)) !! r = Some m \/
  scene_meshes (snd (dispatch e w)) !! r = Some (set_isDisposed true m).
Proof.
  intros Hw Hr. pose proof (lookup_lt_Some _ _ _ Hr) as Hlt.
  assert (forall r0 w0, scene_meshes w0 = scene_meshes w ->
            scene_meshes (disposed r0 w0) !! r = Some m \/
            scene_meshes (disposed r0 w0) !! r = Some (set_isDisposed true m)) as Hdisp.
  { intros r0 w0 Hw0. rewrite disposed_lookup, Hw0, Hr. case_decide; [by right|by left]. }
  destruct e as [plane random|plane|plane|]; cbn [dispatch].
  - rewrite onPlaneAdded_added. cbn [snd]. unfold added.
    destruct (buildable (polygonDefinition plane)); [|by left].
    left. by rewrite installed_lookup_old.
  - destruct (Array_get (_planes w) (plane_id plane)) as [r0|] eqn:Hslot.
    + destruct (proj1 Hw _ _ Hslot) as (m0 & k & Hm & Hk & _).
      rewrite (onPlaneUpdated_updated plane w r0 m0 k) by assumption. cbn [snd].
      unfold updated. destruct (buildable (polygonDefinition plane)).
      * rewrite installed_lookup_old by by rewrite disposed_length.
        by apply Hdisp.
      * by apply Hdisp.
    + rewrite onPlaneUpdated_untracked by assumption. by left.
  - destruct (Array_get (_planes w) (plane_id plane)) as [r0|] eqn:Hslot.
    + destruct (proj1 Hw _ _ Hslot) as (m0 & k & Hm & _).
      rewrite (onPlaneRemoved_tracked plane w r0 m0) by assumption. by apply Hdisp.
    + rewrite onPlaneRemoved_untracked by assumption. by left.
  - rewrite onXRSessionInit_spec by by apply wf_refs_valid.
    cbn [snd with_planes scene_meshes]. rewrite dispose_all_lookup, Hr.
    case_decide; [by right|by left].
Qed.

(** X1: every store the callbacks reach from the initial one, by whatever
    sequence of events, is well-formed: every filled slot of [_planes] names a
    mesh of the scene whose material is a material of the scene, and no mesh
    sits in two slots. *)
Theorem reachable_stores_are_well_formed es : wf_World (deliver es World_init).
Proof. apply wf_deliver, wf_World_init. Qed.

(** X2: the callbacks never dispose or change a material and construct one
    per PlaneAdded event, also for an add whose build throws: after any
    sequence of events the materials of the scene are the earlier ones
    followed by one material per PlaneAdded, in order, each with alpha 0.35,
    the colour drawn for it, and not disposed. *)
Theorem materials_are_only_appended es w :
  wf_World w ->
  scene_materials (deliver es w) = scene_materials w ++ flat_map constructed es.
Proof.
  revert w. induction es as [|e es IH]; intros w Hw.
  - cbn. by rewrite app_nil_r.
  - rewrite deliver_cons, IH by by apply wf_dispatch.
    rewrite dispatch_materials by assumption. cbn [flat_map]. by rewrite app_assoc.
Qed.

Lemma materials_are_only_appended_witness :
  scene_materials
    (deliver [PlaneAdded (triangle 0) red; PlaneAdded (stale_triangle 1) blue;
              PlaneUpdated (segment 0); SessionReinitialized] World_init) =
  scene_materials World_init ++
    flat_map constructed
      [PlaneAdded (triangle 0) red; PlaneAdded (stale_triangle 1) blue;
       PlaneUpdated (segment 0); SessionReinitialized].
Proof.
  apply (materials_are_only_appended
           [PlaneAdded (triangle 0) red; PlaneAdded (stale_triangle 1) blue;
            PlaneUpdated (segment 0); SessionReinitialized] World_init).
  split; intros [|?]; discriminate.
Defined.

(** X3: a mesh, once built, is never changed by any callback except that it
    is disposed, and a disposed mesh stays disposed: after any sequence of
    events a mesh of the scene is as it was, or as it was but disposed. *)
Theorem meshes_only_change_by_disposal es w r m :
  wf_World w ->
  scene_meshes w !! r = Some m ->
  scene_meshes (deliver es w) !! r = Some m \/
  scene_meshes (deliver es w) !! r = Some (set_isDisposed true m).
Proof.
  revert w m. induction es as [|e es IH]; intros w m Hw Hr; [by left|].
  rewrite deliver_cons.
  destruct (dispatch_mesh e w r m Hw Hr) as [H|H].
  - by apply IH; [apply wf_dispatch|].
  - right. by destruct (IH _ _ (wf_dispatch e w Hw) H) as [H'|H'].
Qed.

Lemma meshes_only_change_by_disposal_witness :
  let es := [PlaneUpdated (segment 0); PlaneAdded (triangle 1) blue; SessionReinitialized] in
  let m := polygon_of (triangle 0) (push_first (polygonDefinition (triangle 0))) (Some 0) in
  scene_meshes (deliver es one_plane) !! 0 = Some m \/
  scene_meshes (deliver es one_plane) !! 0 = Some (set_isDisposed true m).
Proof.
  apply (meshes_only_change_by_disposal
           [PlaneUpdated (segment 0); PlaneAdded (triangle 1) blue; SessionReinitialized]
           one_plane 0).
  - apply (wf_deliver [PlaneAdded (triangle 0) red] World_init).
    split; intros [|?]; discriminate.
  - reflexivity.
Defined.

(** ** Error and edge behaviour of the add and update callbacks *)

(** X4: a PlaneAdded whose outline is empty or has a missing point throws a
    TypeError out of the add callback.  The registry and the meshes are left
    as they were, but the material has been constructed by then and the
    shared variable [mat] points at it. *)
Theorem add_with_unbuildable_outline_throws plane random w :
  buildable (polygonDefinition plane) = false ->
  exists w',
    onPlaneAdded plane random w = (Throw TypeError, w') /\
    _planes w' = _planes w /\
    scene_meshes w' = scene_meshes w /\
    scene_materials w' =
      scene_materials w ++
        [{| alpha := 0.35%Q; diffuseColor := random; material_isDisposed := false |}] /\
    mat w' = Some (length (scene_materials w)).
Proof.
  intros Hb. exists (with_new_material random w).
  rewrite onPlaneAdded_added. unfold added. rewrite Hb. repeat split.
Qed.

Lemma add_with_unbuildable_outline_throws_witness :
  exists w',
    onPlaneAdded (stale_triangle 3) blue one_plane = (Throw TypeError, w') /\
    _planes w' = _planes one_plane /\
    scene_meshes w' = scene_meshes one_plane /\
    scene_materials w' =
      scene_materials one_plane ++
        [{| alpha := 0.35%Q; diffuseColor := blue; material_isDisposed := false |}] /\
    mat w' = Some (length (scene_materials one_plane)).
Proof.
  apply (add_with_unbuildable_outline_throws (stale_triangle 3) blue one_plane).
  reflexivity.
Defined.

(** X5: an empty outline is not caught by the test for missing points
    ([[].some(...)] is false): a PlaneUpdated with an empty outline for an id
    whose slot holds a mesh with a material disposes that mesh and then
    throws a TypeError from [initPolygon]; the slot keeps the disposed mesh
    and nothing is built. *)
Theorem update_with_empty_outline_throws plane w r m k :
  polygonDefinition plane = [] ->
  Array_get (_planes w) (plane_id plane) = Some r ->
  scene_meshes w !! r = Some m ->
  material m = Some k ->
  exists w',
    some_missing (polygonDefinition plane) = false /\
    onPlaneUpdated plane w = (Throw TypeError, w') /\
    _planes w' = _planes w /\
    length (scene_meshes w') = length (scene_meshes w) /\
    scene_meshes w' !! r = Some (set_isDisposed true m).
Proof.
  intros Hpts Hslot Hm Hk. exists (disposed r (with_mat (Some k) w)).
  rewrite (onPlaneUpdated_updated plane w r m k) by assumption.
  unfold updated. rewrite Hpts. cbn [some_missing existsb buildable orb].
  repeat split.
  - by rewrite disposed_length.
  - rewrite disposed_lookup, decide_True by done. cbn [with_mat scene_meshes].
    by rewrite Hm.
Qed.

Lemma update_with_empty_outline_throws_witness :
  exists w',
    some_missing (polygonDefinition (mkPlane 0 [] placement horizontal)) = false /\
    onPlaneUpdated (mkPlane 0 [] placement horizontal) one_plane = (Throw TypeError, w') /\
    _planes w' = _planes one_plane /\
    length (scene_meshes w') = length (scene_meshes one_plane) /\
    scene_meshes w' !! 0 =
      Some (set_isDisposed true
              (polygon_of (triangle 0) (push_first (polygonDefinition (triangle 0))) (Some 0))).
Proof.
  apply (update_with_empty_outline_throws (mkPlane 0 [] placement horizontal) one_plane 0 _ 0);
    reflexivity.
Defined.

Lemma disposed_with_mat_length r k w :
  length (scene_meshes (disposed r (with_mat k w))) = length (scene_meshes w).
Proof. by rewrite disposed_length. Qed.

(** X6: removal does not retire an id.  After a PlaneRemoved for an id whose
    slot holds a mesh, a PlaneUpdated with an outline that has a first point
    and no missing point completes and installs a newly built, undisposed
    mesh for the id, with the material the removed mesh had; the removed mesh
    stays in the scene store, disposed. *)
Theorem update_revives_removed_plane plane plane' w r m k :
  plane_id plane' = plane_id plane ->
  Array_get (_planes w) (plane_id plane) = Some r ->
  scene_meshes w !! r = Some m ->
  material m = Some k ->
  buildable (polygonDefinition plane') = true ->
  let w1 := snd (onPlaneRemoved plane w) in
  exists w2,
    onPlaneUpdated plane' w1 = (Normal tt, w2) /\
    Array_get (_planes w2) (plane_id plane) = Some (length (scene_meshes w)) /\
    scene_meshes w !! length (scene_meshes w) = None /\
    scene_meshes w2 !! length (scene_meshes w) =
      Some (polygon_of plane' (push_first (polygonDefinition plane')) (Some k)) /\
    scene_meshes w2 !! r = Some (set_isDisposed true m) /\
    scene_materials w2 = scene_materials w.
Proof.
  intros Hid Hslot Hm Hk Hb w1. subst w1.
  rewrite (onPlaneRemoved_tracked plane w r m) by assumption. cbn [snd].
  assert (scene_meshes (disposed r w) !! r = Some (set_isDisposed true m)) as Hm1.
  { rewrite disposed_lookup, decide_True by done. by rewrite Hm. }
  assert (r < length (scene_meshes w)) as Hr by (by apply lookup_lt_Some with m).
  exists (updated plane' r k (disposed r w)).
  rewrite (onPlaneUpdated_updated plane' (disposed r w) r (set_isDisposed true m) k);
    [|by rewrite Hid|exact Hm1|exact Hk].
  rewrite Hb, orb_true_r. split; [reflexivity|].
  unfold updated. rewrite Hb. rewrite <- Hid.
  split.
  { rewrite installed_slot, decide_True by done.
    by rewrite disposed_with_mat_length, disposed_length. }
  split; [apply lookup_ge_None; lia|].
  split.
  { pose proof (installed_lookup_new plane' (Some k)
                  (disposed r (with_mat (Some k) (disposed r w)))) as H.
    by rewrite disposed_with_mat_length, disposed_length in H. }
  split; [|reflexivity].
  rewrite installed_lookup_old by by rewrite disposed_with_mat_length, disposed_length.
  rewrite disposed_lookup, decide_True by done. cbn [with_mat scene_meshes].
  by rewrite Hm1.
Qed.

Lemma update_revives_removed_plane_witness :
  let w1 := snd (onPlaneRemoved (triangle 0) one_plane) in
  exists w2,
    onPlaneUpdated (segment 0) w1 = (Normal tt, w2) /\
    Array_get (_planes w2) 0 = Some (length (scene_meshes one_plane)) /\
    scene_meshes one_plane !! length (scene_meshes one_plane) = None /\
    scene_meshes w2 !! length (scene_meshes one_plane) =
      Some (polygon_of (segment 0) (push_first (polygonDefinition (segment 0))) (Some 0)) /\
    scene_meshes w2 !! 0 =
      Some (set_isDisposed true
              (polygon_of (triangle 0) (push_first (polygonDefinition (triangle 0))) (Some 0))) /\
    scene_materials w2 = scene_materials one_plane.
Proof.
  apply (update_revives_removed_plane (triangle 0) (segment 0) one_plane 0 _ 0); reflexivity.
Defined.

(** ** Session re-initialisation *)

(** X7: on a well-formed store whose registry has no hole, the session
    re-initialisation completes, empties the registry, and leaves every mesh
    the registry held disposed; the materials are kept as they were. *)
Theorem session_reinit_clears_dense_registry w :
  wf_World w ->
  Forall is_Some (_planes w) ->
  exists w',
    onXRSessionInit w = (Normal tt, w') /\
    _planes w' = [] /\
    (forall i r, Array_get (_planes w) i = Some r ->
       isDisposed <$> scene_meshes w' !! r = Some true) /\
    scene_materials w' = scene_materials w.
Proof.
  intros Hw Hd. pose proof (wf_refs_valid w Hw) as Hv.
  exists (with_planes pop_while (dispose_all (Array_present (_planes w)) w)).
  split; [by apply onXRSessionInit_spec|].
  split; [cbn [with_planes _planes]; rewrite dispose_all_planes; by apply pop_while_dense|].
  split; [|apply dispose_all_materials].
  intros i r Hi. cbn [with_planes scene_meshes]. rewrite dispose_all_lookup.
  rewrite decide_True by (apply elem_of_Array_present; by exists i).
  destruct (lookup_lt_is_Some_2 _ _ (Hv i r Hi)) as [m ->]. reflexivity.
Qed.

Lemma session_reinit_clears_dense_registry_witness :
  exists w',
    onXRSessionInit one_plane = (Normal tt, w') /\
    _planes w' = [] /\
    (forall i r, Array_get (_planes one_plane) i = Some r ->
       isDisposed <$> scene_meshes w' !! r = Some true) /\
    scene_materials w' = scene_materials one_plane.
Proof.
  apply (session_reinit_clears_dense_registry one_plane).
  - apply (wf_deliver [PlaneAdded (triangle 0) red] World_init).
    split; intros [|?]; discriminate.
  - repeat constructor. by eexists.
Defined.

(** X8: on a well-formed store whose registry has a hole, the session
    re-initialisation removes the entries above the topmost hole and that
    hole, and keeps every entry below it; all meshes the registry held are
    disposed, the ones whose entries are removed and the ones whose entries
    stay, and no material is touched.  (The registry is a JavaScript array:
    its length is below 2^32.) *)
Theorem session_reinit_keeps_entries_below_hole w a b :
  wf_World w ->
  (Z.of_nat (length (_planes w)) < 2 ^ 32)%Z ->
  _planes w = a ++ None :: b ->
  Forall is_Some b ->
  exists w',
    onXRSessionInit w = (Normal tt, w') /\
    _planes w' = a /\
    (forall i r, Array_get a i = Some r -> Array_get (_planes w') i = Some r) /\
    (forall i r, Array_get (_planes w) i = Some r ->
       isDisposed <$> scene_meshes w' !! r = Some true) /\
    scene_materials w' = scene_materials w.
Proof.
  intros Hw _ Ha Hb. pose proof (wf_refs_valid w Hw) as Hv.
  exists (with_planes pop_while (dispose_all (Array_present (_planes w)) w)).
  split; [by apply onXRSessionInit_spec|].
  assert (_planes (with_planes pop_while (dispose_all (Array_present (_planes w)) w)) = a)
    as Hplanes.
  { cbn [with_planes _planes]. rewrite dispose_all_planes, Ha. by apply pop_while_hole. }
  split; [exact Hplanes|].
  split; [intros i r Hi; by rewrite Hplanes|].
  split.
  - intros i r Hi. cbn [with_planes scene_meshes]. rewrite dispose_all_lookup.
    rewrite decide_True by (apply elem_of_Array_present; by exists i).
    destruct (lookup_lt_is_Some_2 _ _ (Hv i r Hi)) as [m ->]. reflexivity.
  - cbn [with_planes scene_materials]. apply dispose_all_materials.
Qed.

Lemma session_reinit_keeps_entries_below_hole_witness :
  exists w',
    onXRSessionInit sparse_planes = (Normal tt, w') /\
    _planes w' = [Some 0] /\
    (forall i r, Array_get [Some 0] i = Some r -> Array_get (_planes w') i = Some r) /\
    (forall i r, Array_get (_planes sparse_planes) i = Some r ->
       isDisposed <$> scene_meshes w' !! r = Some true) /\
    scene_materials w' = scene_materials sparse_planes.
Proof.
  apply (session_reinit_keeps_entries_below_hole sparse_planes [Some 0] [Some 1]).
  - apply (wf_deliver [PlaneAdded (triangle 0) red; PlaneAdded (triangle 2) blue] World_init).
    split; intros [|?]; discriminate.
  - reflexivity.
  - reflexivity.
  - repeat constructor. by eexists.
Defined.

(** ** The registry, id by id *)

(** X9: what the registry shows for an id after a sequence of PlaneAdded,
    PlaneUpdated and PlaneRemoved notifications, delivered to a well-formed
    store, is computed from the notifications about that id alone, in order:
    a buildable add shows a new mesh with a new material, a buildable update
    a new mesh with the material shown before, any other update and a removal
    the mesh shown before, disposed; an update or removal for an id that
    shows nothing shows nothing. *)
Theorem registry_shows_fold_of_own_events i es w :
  wf_World w ->
  Forall plane_notification es ->
  view i (deliver es w) = foldl (fun v e => track e v) (view i w) (filter (about i) es).
Proof. apply view_deliver. Qed.

Lemma registry_shows_fold_of_own_events_witness :
  let es := [PlaneAdded (triangle 1) blue; PlaneAdded (triangle 0) red;
             PlaneUpdated (stale_triangle 1); PlaneRemoved (triangle 0);
             PlaneUpdated (segment 0)] in
  view 0 (deliver es World_init) =
  foldl (fun v e => track e v) (view 0 World_init) (filter (about 0) es).
Proof.
  apply (registry_shows_fold_of_own_events 0
           [PlaneAdded (triangle 1) blue; PlaneAdded (triangle 0) red;
            PlaneUpdated (stale_triangle 1); PlaneRemoved (triangle 0);
            PlaneUpdated (segment 0)] World_init).
  - split; intros [|?]; discriminate.
  - repeat (constructor; [discriminate|]). constructor.
Defined.

(** * The hit-test marker *)

Lemma HitTest_deliver_snoc rss results x :
  HitTest.deliver (rss ++ [results]) x =
  snd (HitTest.onHitTestResult results (HitTest.deliver rss x)).
Proof. unfold HitTest.deliver. by rewrite foldl_app. Qed.

Lemma HitTest_latest_hit_snoc rss results :
  HitTest.latest_hit (rss ++ [results]) =
    match results with
    | first :: _ => Some first
    | [] => HitTest.latest_hit rss
    end.
Proof. unfold HitTest.latest_hit. by rewrite foldl_app. Qed.

Lemma HitTest_marker_stays rss x mk :
  HitTest._marker x = Some mk ->
  exists mk', HitTest._marker (HitTest.deliver rss x) = Some mk'.
Proof.
  intros Hmk. induction rss as [|results rss IH] using rev_ind; [by exists mk|].
  destruct IH as [mk' Hmk']. rewrite HitTest_deliver_snoc.
  unfold HitTest.onHitTestResult. rewrite Hmk'.
  destruct results; by eexists.
Qed.

(** X10: once the marker exists, the hit-test callback never throws, and
    after every call the marker is visible exactly when a hit result is
    stored in [_hitTest], which is exactly when the result list of that call
    was not empty; the stored result is the first of the list. *)
Theorem marker_visible_iff_hit_stored rss results x mk :
  HitTest._marker x = Some mk ->
  let x0 := HitTest.deliver rss x in
  let x' := snd (HitTest.onHitTestResult results x0) in
  fst (HitTest.onHitTestResult results x0) = Normal tt /\
  HitTest._hitTest x' = head results /\
  exists mk',
    HitTest._marker x' = Some mk' /\
    HitTest.isVisible mk' = bool_decide (is_Some (HitTest._hitTest x')).
Proof.
  intros Hmk x0 x'. subst x0 x'.
  destruct (HitTest_marker_stays rss x mk Hmk) as [mk0 Hmk0].
  unfold HitTest.onHitTestResult. rewrite Hmk0.
  destruct results as [|first rest]; cbn; (split; [reflexivity|]);
    (split; [reflexivity|]); by eexists.
Qed.

Lemma marker_visible_iff_hit_stored_witness :
  let x := HitTest.addMarkerForHitTest (HitTest.mkXrExperience true None None) in
  let x0 := HitTest.deliver [[HitTest.mkHitResult placement]; []] x in
  let x' := snd (HitTest.onHitTestResult [HitTest.mkHitResult placement] x0) in
  fst (HitTest.onHitTestResult [HitTest.mkHitResult placement] x0) = Normal tt /\
  HitTest._hitTest x' = head [HitTest.mkHitResult placement] /\
  exists mk',
    HitTest._marker x' = Some mk' /\
    HitTest.isVisible mk' = bool_decide (is_Some (HitTest._hitTest x')).
Proof.
  apply (marker_visible_iff_hit_stored [[HitTest.mkHitResult placement]; []]
           [HitTest.mkHitResult placement]
           (HitTest.addMarkerForHitTest (HitTest.mkXrExperience true None None))
           (HitTest.mkMarker false (Some Quaternion_new) Vector3_Zero Vector3_One)).
  reflexivity.
Defined.

(** X11: the marker is placed by the first result of the most recent
    non-empty result list: after any sequence of hit-test callbacks its
    position and rotation are the translation and rotation of that result's
    matrix; an empty result list hides the marker but leaves it where it was,
    a non-empty one shows it; its scaling is never changed.  (Before the
    first callback it is as it was created.) *)
Theorem marker_pose_is_latest_hit rss x mk q :
  HitTest._marker x = Some mk ->
  HitTest.rotationQuaternion mk = Some q ->
  exists mk',
    HitTest._marker (HitTest.deliver rss x) = Some mk' /\
    HitTest.scaling mk' = HitTest.scaling mk /\
    HitTest.isVisible mk' =
      match last rss with
      | Some [] => false
      | Some (_ :: _) => true
      | None => HitTest.isVisible mk
      end /\
    match HitTest.latest_hit rss with
    | Some hit =>
        HitTest.position mk' = m_translation (HitTest.transformationMatrix hit) /\
        HitTest.rotationQuaternion mk' = Some (m_rotation (HitTest.transformationMatrix hit))
    | None =>
        HitTest.position mk' = HitTest.position mk /\
        HitTest.rotationQuaternion mk' = Some q
    end.
Proof.
  intros Hmk Hq. induction rss as [|results rss IH] using rev_ind.
  - exists mk. by repeat split.
  - destruct IH as (mk0 & Hmk0 & Hscale & _ & Hpose).
    rewrite HitTest_deliver_snoc, HitTest_latest_hit_snoc, last_snoc.
    unfold HitTest.onHitTestResult. rewrite Hmk0.
    destruct results as [|first rest]; cbn [snd HitTest._marker].
    + exists (HitTest.set_isVisible false mk0). split; [reflexivity|].
      split; [exact Hscale|]. split; [reflexivity|]. exact Hpose.
    + eexists. split; [reflexivity|]. split; [exact Hscale|].
      split; [reflexivity|].
      cbn. split; [reflexivity|].
      destruct (HitTest.latest_hit rss); destruct Hpose as [_ ->]; reflexivity.
Qed.

Lemma marker_pose_is_latest_hit_witness :
  let x := HitTest.addMarkerForHitTest (HitTest.mkXrExperience true None None) in
  let far := mkMatrix Vector3_One Quaternion_new (mkVector3 0%Q 0%Q 9%Q) in
  exists mk',
    HitTest._marker
      (HitTest.deliver [[HitTest.mkHitResult placement; HitTest.mkHitResult far]; []] x) =
      Some mk' /\
    HitTest.scaling mk' = Vector3_One /\
    HitTest.isVisible mk' = false /\
    HitTest.position mk' = m_translation placement /\
    HitTest.rotationQuaternion mk' = Some (m_rotation placement).
Proof.
  apply (marker_pose_is_latest_hit
           [[HitTest.mkHitResult placement;
             HitTest.mkHitResult (mkMatrix Vector3_One Quaternion_new (mkVector3 0%Q 0%Q 9%Q))];
            []]
           (HitTest.addMarkerForHitTest (HitTest.mkXrExperience true None None))
           (HitTest.mkMarker false (Some Quaternion_new) Vector3_Zero Vector3_One)
           Quaternion_new); reflexivity.
Defined.

(** * Enabling the features *)

(** X12: [addFeaturesToSession] enables the features in the order plane
    detection, hit test, anchor system, and stops at the first one that
    cannot be enabled: a feature is enabled exactly when it and all features
    before it can be, so hit testing and anchors stay off when plane
    detection fails, also when they are available themselves. *)
Theorem features_are_enabled_up_to_first_failure fm :
  let x := Features.addFeaturesToSession (Features.initial (Some fm)) in
  Features._xrPlanes x = fm Features.PLANE_DETECTION /\
  Features._xrHitTest x =
    match fm Features.PLANE_DETECTION with
    | Some _ => fm Features.HIT_TEST
    | None => None
    end /\
  Features._xrAnchors x =
    match fm Features.PLANE_DETECTION, fm Features.HIT_TEST with
    | Some _, Some _ => fm Features.ANCHOR_SYSTEM
    | _, _ => None
    end.
Proof.
  unfold Features.addFeaturesToSession, Features.initial. cbn.
  destruct (fm Features.PLANE_DETECTION); [|done].
  destruct (fm Features.HIT_TEST); [|done].
  by destruct (fm Features.ANCHOR_SYSTEM).
Qed.

(** X13: when plane detection cannot be enabled, part 9 subscribes to
    nothing at all: no plane, session, hit-test, anchor or controller
    callback, whatever the other features would answer. *)
Theorem no_plane_detection_no_subscriptions fm :
  fm Features.PLANE_DETECTION = None ->
  Features.createScene (Features.addFeaturesToSession (Features.initial (Some fm))) = [].
Proof.
  intros Hp. unfold Features.addFeaturesToSession, Features.initial. cbn.
  by rewrite Hp.
Qed.

Lemma no_plane_detection_no_subscriptions_witness :
  let fm := fun name =>
    match name with
    | Features.PLANE_DETECTION => None
    | _ => Some (Features.mkFeature true)
    end in
  Features.createScene (Features.addFeaturesToSession (Features.initial (Some fm))) = [].
Proof.
  apply (no_plane_detection_no_subscriptions
           (fun name => match name with
                        | Features.PLANE_DETECTION => None
                        | _ => Some (Features.mkFeature true)
                        end)).
  reflexivity.
Defined.

(** X14: part 9 subscribes to the controllers, and so reacts to the trigger
    and to the door button, exactly when plane detection, hit test and the
    anchor system can all be enabled and the anchor system is compatible. *)
Theorem controllers_need_all_features fm :
  Features.onControllerAddedObservable ∈
    Features.createScene (Features.addFeaturesToSession (Features.initial (Some fm))) <->
  is_Some (fm Features.PLANE_DETECTION) /\
  is_Some (fm Features.HIT_TEST) /\
  exists anchors, fm Features.ANCHOR_SYSTEM = Some anchors /\
                  Features.isCompatible anchors = true.
Proof.
  unfold Features.addFeaturesToSession, Features.initial. cbn.
  destruct (fm Features.PLANE_DETECTION) as [p|]; cbn.
  2: { split; [by intros ?%elem_of_nil|]. by intros [[? [=]] _]. }
  destruct (fm Features.HIT_TEST) as [h|]; cbn.
  2: { split; [|by intros (_ & [? [=]] & _)].
       intros H. repeat (apply elem_of_cons in H as [[=]|H]). by apply elem_of_nil in H. }
  destruct (fm Features.ANCHOR_SYSTEM) as [a|]; cbn.
  2: { split; [|by intros (_ & _ & ? & [=] & _)].
       intros H. repeat (apply elem_of_cons in H as [[=]|H]). by apply elem_of_nil in H. }
  destruct (Features.isCompatible a) eqn:Hc; cbn.
  - split; [intros _; repeat split; eauto|]. intros _.
    repeat (first [apply list_elem_of_here | apply list_elem_of_further]).
  - split.
    + intros H. repeat (apply elem_of_cons in H as [[=]|H]). by apply elem_of_nil in H.
    + intros (_ & _ & a' & [= <-] & Ha). congruence.
Qed.

(** * Placing and opening the door *)

(** ** Names of plane meshes *)

Lemma prefix_append s t : String.prefix s (s +:+ t) = true.
Proof.
  induction s as [|a s IH]; simpl; [by destruct t|].
  destruct (Ascii.ascii_dec a a); [exact IH|done].
Qed.

Lemma includes_prefix s sub : String.prefix sub s = true -> Door.includes s sub = true.
Proof. intros H. destruct s; cbn [Door.includes]; by rewrite H. Qed.

Lemma mentions_append c s t :
  Door.mentions c (s +:+ t) = Door.mentions c s || Door.mentions c t.
Proof.
  induction s as [|a s IH]; simpl; [reflexivity|].
  by destruct (Ascii.ascii_dec c a).
Qed.

Lemma includes_vertical_mentions_v s :
  Door.mentions "v"%char s = false -> Door.includes s "vertical" = false.
Proof.
  induction s as [|a s IH]; [reflexivity|]. intros H.
  change (Door.includes (String a s) "vertical") with
    (if String.prefix "vertical" (String a s) then true else Door.includes s "vertical").
  cbn [Door.mentions] in H. cbn [String.prefix].
  destruct (Ascii.ascii_dec "v"%char a); [discriminate|]. by apply IH.
Qed.

Lemma decimal_mentions_no_v d : Door.mentions "v"%char (NilEmpty.string_of_uint d) = false.
Proof. induction d; simpl; assumption || reflexivity. Qed.

Lemma polygon_name_vertical plane :
  xrPlane_orientation plane = vertical ->
  Door.includes (Door.polygon_name plane) "vertical" = true.
Proof.
  intros Ho. apply includes_prefix. unfold Door.polygon_name. rewrite Ho.
  apply prefix_append.
Qed.

Lemma polygon_name_horizontal plane :
  xrPlane_orientation plane = horizontal ->
  Door.includes (Door.polygon_name plane) "vertical" = false /\
  Door.includes (Door.polygon_name plane) "horizontal" = true.
Proof.
  intros Ho. unfold Door.polygon_name. rewrite Ho. split.
  - apply includes_vertical_mentions_v. rewrite mentions_append, decimal_mentions_no_v.
    reflexivity.
  - apply includes_prefix, prefix_append.
Qed.

Lemma gt_true a b : (b < a)%Q -> Door.gt a b = true.
Proof.
  intros H. unfold Door.gt. destruct (Qle_bool a b) eqn:E; [|reflexivity].
  apply Qle_bool_iff in E. by apply Qlt_not_le in H.
Qed.

Lemma gt_false a b : (a <= b)%Q -> Door.gt a b = false.
Proof. intros H. unfold Door.gt. apply Qle_bool_iff in H. by rewrite H. Qed.

(** ** Stepping through the callbacks of part 9 *)

Lemma Door_bind_bind {A B C} (m : Door.M A) (k : A -> Door.M B) (k' : B -> Door.M C) x :
  Door.bind (Door.bind m k) k' x = Door.bind m (fun a => Door.bind (k a) k') x.
Proof. unfold Door.bind. by destruct (m x) as [[a|e] x']. Qed.

Lemma Door_bind_ret {A B} (a : A) (k : A -> Door.M B) x :
  Door.bind (Door.ret a) k x = k a x.
Proof. reflexivity. Qed.

Lemma Door_bind_throw {A B} (e : Error) (k : A -> Door.M B) x :
  Door.bind (Door.throw e) k x = (Throw e, x).
Proof. reflexivity. Qed.

Lemma Door_bind_gets {A B} (f : Door.XrExperience -> A) (k : A -> Door.M B) x :
  Door.bind (Door.gets f) k x = k (f x) x.
Proof. reflexivity. Qed.

Lemma Door_bind_modify {B} (f : Door.XrExperience -> Door.XrExperience)
    (k : unit -> Door.M B) x :
  Door.bind (Door.modify f) k x = k tt (f x).
Proof. reflexivity. Qed.

Lemma Door_bind_update_mesh {B} r f (k : unit -> Door.M B) x :
  Door.bind (Door.update_mesh r f) k x =
  k tt (Door.set_meshes (alter f r (Door.meshes x)) x).
Proof. reflexivity. Qed.

Lemma Door_bind_read_mesh {B} r m (k : Door.AbstractMesh -> Door.M B) x :
  Door.meshes x !! r = Some m ->
  Door.bind (Door.read_mesh r) k x = k m x.
Proof. intros H. unfold Door.bind, Door.read_mesh. by rewrite H. Qed.

Lemma Door_bind_the_Some {A B} (a : A) (k : A -> Door.M B) x :
  Door.bind (Door.the (Some a)) k x = k a x.
Proof. reflexivity. Qed.

Lemma Door_bind_the_None {A B} (k : A -> Door.M B) x :
  Door.bind (Door.the None) k x = (Throw TypeError, x).
Proof. reflexivity. Qed.

(** One step of symbolic execution of a callback on a store. *)
Ltac door_step :=
  first
    [ rewrite Door_bind_bind
    | rewrite Door_bind_ret
    | rewrite Door_bind_throw
    | rewrite Door_bind_gets
    | rewrite Door_bind_modify
    | rewrite Door_bind_update_mesh
    | rewrite Door_bind_the_Some
    | rewrite Door_bind_the_None ];
  cbv beta.

(** ** Where the door can be placed *)

(** X15: the trigger never places the door on a wall or on a raised
    surface.  When the picked mesh is the mesh of a detected plane (named
    as part 9's [initPolygon] names it) that is vertical, or that lies
    higher than 0.5, the trigger callback changes nothing and requests no
    anchor, whatever the trigger state and the plane's id. *)
Theorem walls_and_raised_planes_are_no_door_site component info r m plane random x :
  Door.pickedMesh info = Some r ->
  Door.meshes x !! r = Some m ->
  Door.name m = Door.polygon_name plane ->
  xrPlane_orientation plane = vertical \/
    (exists p, Door.position m = Some p /\ (0.5 < vy p)%Q) ->
  Door.onTriggerStateChanged component (Some info) random x = (Normal tt, x).
Proof.
  intros Hr Hm Hname Hsite. unfold Door.onTriggerStateChanged.
  destruct (Door.pressed component && Door.gt (Door.value component) 0.8%Q); [|reflexivity].
  rewrite Hr. destruct (Door.hit info); [|reflexivity].
  unfold Door.bind at 1, Door.read_mesh. rewrite Hm, Hname.
  destruct (xrPlane_orientation plane) eqn:Ho.
  - destruct Hsite as [?|(p & Hp & Hy)]; [discriminate|].
    destruct (polygon_name_horizontal plane Ho) as [-> ->].
    unfold Door.bind, Door.the. rewrite Hp. cbn. by rewrite gt_true.
  - by rewrite (polygon_name_vertical plane Ho).
Qed.

Lemma walls_and_raised_planes_are_no_door_site_witness :
  let wall := Door.mkAbstractMesh "vertical12" true (Some origin) None None None [] in
  let x := Door.mkXrExperience [wall] [] [] true None None None None None None
             false false [] [] [] in
  Door.onTriggerStateChanged (Door.mkComponent true 1%Q)
    (Some (Door.mkPickingInfo true (Some 0) (Some origin))) red x = (Normal tt, x).
Proof.
  apply (walls_and_raised_planes_are_no_door_site (Door.mkComponent true 1%Q)
           (Door.mkPickingInfo true (Some 0) (Some origin)) 0
           (Door.mkAbstractMesh "vertical12" true (Some origin) None None None [])
           (mkPlane 12 [] placement vertical)).
  - reflexivity.
  - reflexivity.
  - reflexivity.
  - left. reflexivity.
Defined.

(** X16: a full trigger pull (pressed, value above 0.8) on the mesh of a
    horizontal detected plane that lies no higher than 0.5, while the door is
    not placed, requests exactly one anchor, for that pick, and changes
    nothing else. *)
Theorem floor_hit_requests_one_anchor component info r m p plane random x :
  Door.pressed component = true ->
  (0.8 < Door.value component)%Q ->
  Door.hit info = true ->
  Door.pickedMesh info = Some r ->
  Door.meshes x !! r = Some m ->
  Door.name m = Door.polygon_name plane ->
  xrPlane_orientation plane = horizontal ->
  Door.position m = Some p ->
  (vy p <= 0.5)%Q ->
  Door._door x <> Some r -> Door._handle x <> Some r -> Door._doorFrame x <> Some r ->
  Door._marker x <> Some r -> Door._box x <> Some r ->
  Door._doorIsPlaced x = false ->
  Door._xrAnchors x = true ->
  Door.onTriggerStateChanged component (Some info) random x =
    (Normal tt, Door.set_anchorRequests (Door.anchorRequests x ++ [info]) x).
Proof.
  intros Hpressed Hvalue Hhit Hr Hm Hname Ho Hp Hy Hd Hh Hf Hmk Hb Hplaced Hanchors.
  unfold Door.onTriggerStateChanged.
  rewrite Hpressed, (gt_true _ _ Hvalue), Hr, Hhit. cbn [andb].
  rewrite (Door_bind_read_mesh r m) by assumption. cbv beta. rewrite Hname.
  destruct (polygon_name_horizontal plane Ho) as [-> ->]. rewrite Hp.
  repeat door_step. rewrite (gt_false _ _ Hy). repeat door_step.
  unfold Door.same. rewrite !bool_decide_eq_false_2 by assumption. cbn [orb].
  repeat door_step. rewrite Hplaced.
  unfold Door.addAnchorAtPosition. repeat door_step. by rewrite Hanchors.
Qed.

Lemma floor_hit_requests_one_anchor_witness :
  let floor := Door.mkAbstractMesh "horizontal3" true (Some origin) None None None [] in
  let x := Door.mkXrExperience [floor] [] [] true None None None None None None
             false false [] [] [] in
  let info := Door.mkPickingInfo true (Some 0) (Some east) in
  Door.onTriggerStateChanged (Door.mkComponent true 1%Q) (Some info) red x =
    (Normal tt, Door.set_anchorRequests (Door.anchorRequests x ++ [info]) x).
Proof.
  apply (floor_hit_requests_one_anchor (Door.mkComponent true 1%Q)
           (Door.mkPickingInfo true (Some 0) (Some east)) 0
           (Door.mkAbstractMesh "horizontal3" true (Some origin) None None None [])
           origin (mkPlane 3 [] placement horizontal));
    try reflexivity; try discriminate.
Defined.

(** ** The door is placed once *)

Lemma Door_bind_read_mesh_cases {B} r (k : Door.AbstractMesh -> Door.M B) x :
  Door.bind (Door.read_mesh r) k x =
    match Door.meshes x !! r with
    | Some m => k m x
    | None => (Throw InvalidReference, x)
    end.
Proof. unfold Door.bind, Door.read_mesh. by destruct (Door.meshes x !! r). Qed.

Lemma Door_bind_the_cases {A B} (o : option A) (k : A -> Door.M B) x :
  Door.bind (Door.the o) k x =
    match o with
    | Some a => k a x
    | None => (Throw TypeError, x)
    end.
Proof. by destruct o. Qed.

(** Symbolic execution of a callback along all its branches. *)
Ltac door_branch :=
  first
    [ door_step
    | rewrite Door_bind_read_mesh_cases
    | rewrite Door_bind_the_cases
    | match goal with
      | |- context [match ?o with Some _ => _ | None => _ end] => destruct o eqn:?
      | |- context [if ?b then _ else _] => destruct b eqn:?
      end ];
  cbn [Door._doorIsPlaced Door.anchorRequests Door._doorIsOpen Door._door
       Door.set_meshes Door.set_materials Door.set_transformNodes Door.set_doorIsOpen
       Door.set_doorIsPlaced Door.set_anchorRequests Door.set_attachedNodes
       Door.set_begunAnimations] in *.

Lemma trigger_keeps_placed component raycastHit random x :
  Door._doorIsPlaced x = true ->
  let x' := snd (Door.onTriggerStateChanged component raycastHit random x) in
  Door._doorIsPlaced x' = true /\ Door.anchorRequests x' = Door.anchorRequests x.
Proof.
  intros Hplaced. unfold Door.onTriggerStateChanged, Door.update_material.
  repeat door_branch; rewrite ?Hplaced; by cbn.
Qed.

Lemma button_keeps_placed component x :
  let x' := snd (Door.onButtonStateChanged component x) in
  Door._doorIsPlaced x' = Door._doorIsPlaced x /\
  Door.anchorRequests x' = Door.anchorRequests x.
Proof.
  unfold Door.onButtonStateChanged, Door.openDoor, Door.closeDoor, Door.animateDoor.
  repeat door_branch; by cbn.
Qed.

Lemma anchor_created_keeps_placed raycastHit anchor x :
  Door._doorIsPlaced x = true ->
  let x' := snd (Door.onAnchorCreated raycastHit anchor x) in
  Door._doorIsPlaced x' = true /\ Door.anchorRequests x' = Door.anchorRequests x.
Proof.
  intros Hplaced. unfold Door.onAnchorCreated.
  repeat door_branch; rewrite ?Hplaced; by cbn.
Qed.

(** X17: once the door is placed it stays placed, and no event requests an
    anchor any more: after any sequence of trigger, button and
    anchor-created events the flag is still set and the anchor requests are
    the ones made before. *)
Theorem placed_door_stays_placed es x :
  Door._doorIsPlaced x = true ->
  Door._doorIsPlaced (Door.deliver es x) = true /\
  Door.anchorRequests (Door.deliver es x) = Door.anchorRequests x.
Proof.
  revert x. induction es as [|e es IH]; intros x Hplaced; [done|].
  change (Door.deliver (e :: es) x) with (Door.deliver es (snd (Door.dispatch e x))).
  assert (Door._doorIsPlaced (snd (Door.dispatch e x)) = true /\
          Door.anchorRequests (snd (Door.dispatch e x)) = Door.anchorRequests x) as [H1 H2].
  { destruct e as [component raycastHit random|component|raycastHit anchor]; cbn [Door.dispatch].
    - by apply trigger_keeps_placed.
    - destruct (button_keeps_placed component x) as [-> ->]. done.
    - by apply anchor_created_keeps_placed. }
  destruct (IH _ H1) as [-> ->]. done.
Qed.

Lemma placed_door_stays_placed_witness :
  let floor := Door.mkAbstractMesh "horizontal3" true (Some origin) None None None [] in
  let x := Door.mkXrExperience [floor] [] [] true None None None None None None
             false true [] [] [] in
  let es := [Door.TriggerStateChanged (Door.mkComponent true 1%Q)
               (Some (Door.mkPickingInfo true (Some 0) (Some east))) red;
             Door.ButtonStateChanged (Door.mkComponent true 1%Q);
             Door.AnchorCreated (Door.mkPickingInfo true (Some 0) (Some east)) 7] in
  Door._doorIsPlaced (Door.deliver es x) = true /\
  Door.anchorRequests (Door.deliver es x) = Door.anchorRequests x.
Proof.
  apply (placed_door_stays_placed
           [Door.TriggerStateChanged (Door.mkComponent true 1%Q)
              (Some (Door.mkPickingInfo true (Some 0) (Some east))) red;
            Door.ButtonStateChanged (Door.mkComponent true 1%Q);
            Door.AnchorCreated (Door.mkPickingInfo true (Some 0) (Some east)) 7]).
  reflexivity.
Defined.

(** X18: when the anchor is created before the door asset has been loaded
    ([_door] is still [null]), the [then] callback of [addAnchorAtPosition]
    throws a TypeError half way: the box has been re-parented to a new
    transform node, moved and made visible, but nothing is attached to the
    anchor and the door is not marked as placed. *)
Theorem anchor_before_door_is_loaded_throws raycastHit anchor x b mb :
  Door._box x = Some b ->
  Door.meshes x !! b = Some mb ->
  Door._door x = None ->
  exists x',
    Door.onAnchorCreated raycastHit anchor x = (Throw TypeError, x') /\
    Door._doorIsPlaced x' = Door._doorIsPlaced x /\
    Door.attachedNodes x' = Door.attachedNodes x /\
    Door.transformNodes x' = Door.transformNodes x ++ [None] /\
    Door.meshes x' !! b =
      Some (Door.set_isVisible true
              (Door.set_position (Some (mkVector3 0%Q 1%Q 0.5%Q))
                 (Door.set_parent
                    (Some (Door.ParentTransformNode (length (Door.transformNodes x)))) mb))).
Proof.
  intros Hbox Hmb Hdoor. eexists. unfold Door.onAnchorCreated.
  repeat door_step. cbn [Door._box Door.set_transformNodes]. rewrite Hbox.
  repeat door_step. cbn [Door._door Door.set_transformNodes Door.set_meshes]. rewrite Hdoor.
  door_step. split; [reflexivity|]. cbn. repeat split.
  by rewrite !list_lookup_alter_eq, Hmb.
Qed.

Lemma anchor_before_door_is_loaded_throws_witness :
  let box := Door.mkAbstractMesh "box" false (Some origin) None (Some 0) None [] in
  let x := Door.mkXrExperience [box] [StandardMaterial_new] [] true None (Some 0)
             None None None None false false [] [] [] in
  exists x',
    Door.onAnchorCreated (Door.mkPickingInfo true (Some 3) (Some east)) 7 x =
      (Throw TypeError, x') /\
    Door._doorIsPlaced x' = false /\
    Door.attachedNodes x' = [] /\
    Door.transformNodes x' = [None] /\
    Door.meshes x' !! 0 =
      Some (Door.set_isVisible true
              (Door.set_position (Some (mkVector3 0%Q 1%Q 0.5%Q))
                 (Door.set_parent (Some (Door.ParentTransformNode 0)) box))).
Proof.
  apply (anchor_before_door_is_loaded_throws (Door.mkPickingInfo true (Some 3) (Some east)) 7
           (Door.mkXrExperience
              [Door.mkAbstractMesh "box" false (Some origin) None (Some 0) None []]
              [StandardMaterial_new] [] true None (Some 0) None None None None
              false false [] [] [])
           0 (Door.mkAbstractMesh "box" false (Some origin) None (Some 0) None []));
    reflexivity.
Defined.

(** ** Opening and closing the door *)

(** The store after a button press on a door that can be animated. *)
Lemma button_pressed_step component x d m q :
  Door.pressed component = true ->
  Door._door x = Some d ->
  Door.meshes x !! d = Some m ->
  Door.rotationQuaternion m = Some q ->
  Door.onButtonStateChanged component x =
    (Normal tt,
     Door.set_doorIsOpen (negb (Door._doorIsOpen x))
       (Door.set_begunAnimations (Door.begunAnimations x ++ [(d, 0, 30, false)])
          (Door.set_meshes
             (alter (Door.set_animations [Door.doorAnimation (Door._doorIsOpen x) q 30]) d
                (Door.meshes x)) x))).
Proof.
  intros Hpressed Hdoor Hm Hq. unfold Door.onButtonStateChanged. rewrite Hpressed.
  door_step.
  destruct (Door._doorIsOpen x) eqn:Hopen;
    unfold Door.closeDoor, Door.openDoor, Door.animateDoor;
    repeat first
      [ door_step
      | rewrite (Door_bind_read_mesh d m) by assumption; cbv beta
      | rewrite Hq
      | rewrite Hdoor
      | rewrite Hopen ];
    reflexivity.
Qed.

(** X19: a press of the door button on a loaded door that has a rotation
    quaternion toggles [_doorIsOpen] and starts one animation of the door,
    frames 0 to 30, not looping, from the door's current rotation to that
    rotation turned about the Y axis by pi/1.5 when the door was closed and by
    -pi/1.5 when it was open; nothing else changes.  The animation is named
    after the state before the press: "doorCloseQuat" when the door is being
    opened and "doorOpenQuat" when it is being closed. *)
Theorem button_press_toggles_and_animates component x d m q :
  Door.pressed component = true ->
  Door._door x = Some d ->
  Door.meshes x !! d = Some m ->
  Door.rotationQuaternion m = Some q ->
  let animation := Door.doorAnimation (Door._doorIsOpen x) q 30 in
  Door.onButtonStateChanged component x =
    (Normal tt,
     Door.set_doorIsOpen (negb (Door._doorIsOpen x))
       (Door.set_begunAnimations (Door.begunAnimations x ++ [(d, 0, 30, false)])
          (Door.set_meshes (alter (Door.set_animations [animation]) d (Door.meshes x)) x))) /\
  Door.animation_name animation =
    (if negb (Door._doorIsOpen x) then "doorCloseQuat" else "doorOpenQuat") /\
  Door.keys animation =
    [(0, Door.Exactly q);
     (30, Door.RotationAxis_multiply (mkVector3 0%Q 1%Q 0%Q)
            (if negb (Door._doorIsOpen x) then (1 / 1.5)%Q else (-1 / 1.5)%Q) q)].
Proof.
  intros Hpressed Hdoor Hm Hq animation.
  split; [by apply (button_pressed_step component x d m q)|].
  subst animation. by destruct (Door._doorIsOpen x).
Qed.

Lemma button_press_toggles_and_animates_witness :
  let door := Door.mkAbstractMesh "Door" true (Some origin) (Some Quaternion_new) None None [] in
  let x := Door.mkXrExperience [door] [] [] true None None (Some 0) None None None
             false true [] [] [] in
  let animation := Door.doorAnimation false Quaternion_new 30 in
  Door.onButtonStateChanged (Door.mkComponent true 1%Q) x =
    (Normal tt,
     Door.set_doorIsOpen true
       (Door.set_begunAnimations [(0, 0, 30, false)]
          (Door.set_meshes [Door.set_animations [animation] door] x))) /\
  Door.animation_name animation = "doorCloseQuat" /\
  Door.keys animation =
    [(0, Door.Exactly Quaternion_new);
     (30, Door.RotationAxis_multiply (mkVector3 0%Q 1%Q 0%Q) (1 / 1.5)%Q Quaternion_new)].
Proof.
  apply (button_press_toggles_and_animates (Door.mkComponent true 1%Q)
           (Door.mkXrExperience
              [Door.mkAbstractMesh "Door" true (Some origin) (Some Quaternion_new) None None []]
              [] [] true None None (Some 0) None None None false true [] [] [])
           0 (Door.mkAbstractMesh "Door" true (Some origin) (Some Quaternion_new) None None [])
           Quaternion_new); reflexivity.
Defined.

Lemma button_released_step component x :
  Door.pressed component = false ->
  Door.onButtonStateChanged component x = (Normal tt, x).
Proof. intros H. unfold Door.onButtonStateChanged. by rewrite H. Qed.

(** X20: on a loaded door that has a rotation quaternion, a sequence of
    button events leaves the door open exactly when the number of presses in
    it is odd (starting from a closed door), and has started one animation
    per press; events of a released button count for nothing. *)
Theorem door_is_open_after_odd_presses cs x d m q :
  Door._door x = Some d ->
  Door.meshes x !! d = Some m ->
  Door.rotationQuaternion m = Some q ->
  let x' := Door.deliver (Door.ButtonStateChanged <$> cs) x in
  Door._doorIsOpen x' = xorb (Door._doorIsOpen x) (Nat.odd (Door.presses cs)) /\
  length (Door.begunAnimations x') = length (Door.begunAnimations x) + Door.presses cs.
Proof.
  revert x m. induction cs as [|c cs IH]; intros x m Hdoor Hm Hq.
  - cbn. split; [by rewrite xorb_false_r|lia].
  - cbn [fmap list_fmap].
    change (Door.deliver (Door.ButtonStateChanged c :: (Door.ButtonStateChanged <$> cs)) x)
      with (Door.deliver (Door.ButtonStateChanged <$> cs)
              (snd (Door.onButtonStateChanged c x))).
    unfold Door.presses. rewrite filter_cons.
    destruct (Door.pressed c) eqn:Hc.
    + rewrite decide_True by done. cbn [length].
      rewrite (button_pressed_step c x d m q) by assumption. cbn [snd].
      match goal with
      | |- context [Door.deliver _ ?x1] =>
          destruct (IH x1 (Door.set_animations
                             [Door.doorAnimation (Door._doorIsOpen x) q 30] m))
            as [H1 H2]
      end.
      * exact Hdoor.
      * cbn. by rewrite list_lookup_alter_eq, Hm.
      * exact Hq.
      * cbv zeta in H1, H2. rewrite H1, H2. cbn. rewrite length_app. cbn [length].
        fold (Door.presses cs). rewrite Nat.odd_succ, <- Nat.negb_odd.
        split; [by destruct (Door._doorIsOpen x), (Nat.odd (Door.presses cs))|lia].
    + rewrite decide_False by done.
      rewrite (button_released_step c x) by assumption. by apply (IH x m).
Qed.

Lemma door_is_open_after_odd_presses_witness :
  let door := Door.mkAbstractMesh "Door" true (Some origin) (Some Quaternion_new) None None [] in
  let x := Door.mkXrExperience [door] [] [] true None None (Some 0) None None None
             false true [] [] [] in
  let cs := [Door.mkComponent true 1%Q; Door.mkComponent false 0%Q;
             Door.mkComponent true 1%Q; Door.mkComponent true 1%Q] in
  let x' := Door.deliver (Door.ButtonStateChanged <$> cs) x in
  Door._doorIsOpen x' = xorb (Door._doorIsOpen x) (Nat.odd (Door.presses cs)) /\
  length (Door.begunAnimations x') = length (Door.begunAnimations x) + Door.presses cs.
Proof.
  apply (door_is_open_after_odd_presses
           [Door.mkComponent true 1%Q; Door.mkComponent false 0%Q;
            Door.mkComponent true 1%Q; Door.mkComponent true 1%Q]
           (Door.mkXrExperience
              [Door.mkAbstractMesh "Door" true (Some origin) (Some Quaternion_new) None None []]
              [] [] true None None (Some 0) None None None false true [] [] [])
           0 (Door.mkAbstractMesh "Door" true (Some origin) (Some Quaternion_new) None None [])
           Quaternion_new); reflexivity.
Defined.

(** X21: a door that cannot be animated is never toggled.  While no door is
    loaded a button event is ignored; on a door without a rotation quaternion
    a press throws a TypeError at [rotationQuaternion!.clone()], before the
    later test that would give the door a quaternion, and [_doorIsOpen] and
    everything else stay as they were. *)
Theorem door_without_rotation_is_not_toggled component x :
  match Door._door x with
  | Some d => exists m, Door.meshes x !! d = Some m /\ Door.rotationQuaternion m = None
  | None => True
  end ->
  Door.onButtonStateChanged component x =
    (if Door.pressed component && bool_decide (is_Some (Door._door x))
     then Throw TypeError else Normal tt, x).
Proof.
  intros Hdoor. unfold Door.onButtonStateChanged.
  destruct (Door.pressed component); [|reflexivity]. door_step.
  destruct (Door._door x) as [d|] eqn:Hd.
  - destruct Hdoor as (m & Hm & Hq). cbn [andb].
    rewrite bool_decide_eq_true_2 by by eexists.
    destruct (Door._doorIsOpen x) eqn:Hopen;
      unfold Door.closeDoor, Door.openDoor, Door.animateDoor;
      repeat first
        [ door_step
        | rewrite (Door_bind_read_mesh d m) by assumption; cbv beta
        | rewrite Hq
        | rewrite Hd
        | rewrite Hopen ];
      reflexivity.
  - cbn [andb]. rewrite bool_decide_eq_false_2 by by intros [? [=]].
    destruct (Door._doorIsOpen x);
      unfold Door.closeDoor, Door.openDoor; door_step; by rewrite Hd.
Qed.

Lemma door_without_rotation_is_not_toggled_witness :
  let door := Door.mkAbstractMesh "Door" true (Some origin) None None None [] in
  let x := Door.mkXrExperience [door] [] [] true None None (Some 0) None None None
             false true [] [] [] in
  Door.onButtonStateChanged (Door.mkComponent true 1%Q) x = (Throw TypeError, x).
Proof.
  apply (door_without_rotation_is_not_toggled (Door.mkComponent true 1%Q)
           (Door.mkXrExperience
              [Door.mkAbstractMesh "Door" true (Some origin) None None None []]
              [] [] true None None (Some 0) None None None false true [] [] [])).
  by eexists.
Defined.

(** ** Recolouring the box *)

Lemma alter_same {A} (f : A -> A) (l : list A) i y :
  l !! i = Some y -> f y = y -> alter f i l = l.
Proof.
  intros Hi Hf. apply list_eq. intros j.
  destruct (decide (i = j)) as [<-|Hne].
  - by rewrite list_lookup_alter_eq, Hi; cbn; rewrite Hf.
  - by rewrite list_lookup_alter_ne.
Qed.

(** X22: a full trigger pull on the box, once the door is placed, gives the
    box's material the colour drawn by Color3.Random() and changes nothing
    else: the box keeps the same material object, no other material and no
    mesh is touched, and no anchor is requested. *)
Theorem trigger_on_box_recolours_it component info b mb k random x :
  Door.pressed component = true ->
  (0.8 < Door.value component)%Q ->
  Door.hit info = true ->
  Door.pickedMesh info = Some b ->
  Door._box x = Some b ->
  Door.meshes x !! b = Some mb ->
  Door.name mb = "box" ->
  Door.material mb = Some k ->
  Door._door x <> Some b -> Door._handle x <> Some b -> Door._doorFrame x <> Some b ->
  Door._marker x <> Some b ->
  Door._doorIsPlaced x = true ->
  Door.onTriggerStateChanged component (Some info) random x =
    (Normal tt,
     Door.set_materials (alter (set_diffuseColor random) k (Door.materials x)) x).
Proof.
  intros Hpressed Hvalue Hhit Hr Hbox Hm Hname Hk Hd Hh Hf Hmk Hplaced.
  unfold Door.onTriggerStateChanged.
  rewrite Hpressed, (gt_true _ _ Hvalue), Hr, Hhit. cbn [andb].
  rewrite (Door_bind_read_mesh b mb) by assumption. cbv beta. rewrite Hname.
  change (Door.includes "box" "vertical") with false.
  change (Door.includes "box" "horizontal") with false. cbv iota.
  repeat door_step. unfold Door.same.
  rewrite !bool_decide_eq_false_2 by assumption. cbn [orb].
  rewrite bool_decide_eq_true_2 by assumption.
  repeat door_step. rewrite (Door_bind_read_mesh b mb) by assumption. cbv beta.
  rewrite Hk. unfold Door.update_material. repeat door_step.
  cbn [Door._doorIsPlaced Door.set_meshes Door.set_materials Door.meshes]. rewrite Hplaced.
  unfold Door.ret. f_equal. unfold Door.set_meshes, Door.set_materials. cbn.
  f_equal. apply alter_same with mb; [exact Hm|].
  destruct mb. cbn in Hk. by subst.
Qed.

Lemma trigger_on_box_recolours_it_witness :
  let box := Door.mkAbstractMesh "box" true (Some origin) None (Some 0) None [] in
  let x := Door.mkXrExperience [box] [StandardMaterial_new] [] true None (Some 0)
             None None None None false true [] [] [] in
  Door.onTriggerStateChanged (Door.mkComponent true 0.9%Q)
    (Some (Door.mkPickingInfo true (Some 0) (Some origin))) blue x =
    (Normal tt,
     Door.set_materials (alter (set_diffuseColor blue) 0 (Door.materials x)) x).
Proof.
  apply (trigger_on_box_recolours_it (Door.mkComponent true 0.9%Q)
           (Door.mkPickingInfo true (Some 0) (Some origin)) 0
           (Door.mkAbstractMesh "box" true (Some origin) None (Some 0) None []) 0 blue
           (Door.mkXrExperience
              [Door.mkAbstractMesh "box" true (Some origin) None (Some 0) None []]
              [StandardMaterial_new] [] true None (Some 0) None None None None
              false true [] [] []));
    try reflexivity; try discriminate.
Defined.

(** ** Placing the door *)

Lemma lookup_alter_sets {A} (P : A -> Prop) (f : A -> A) (l : list A) i :
  (forall y, P (f y)) -> i < length l -> exists m, alter f i l !! i = Some m /\ P m.
Proof.
  intros Hf Hi. destruct (lookup_lt_is_Some_2 l i Hi) as [y Hy].
  exists (f y). by rewrite list_lookup_alter_eq, Hy.
Qed.

Lemma lookup_alter_keeps {A} (P : A -> Prop) (f : A -> A) (l : list A) i j :
  (forall y, P y -> P (f y)) ->
  (exists m, l !! i = Some m /\ P m) ->
  exists m, alter f j l !! i = Some m /\ P m.
Proof.
  intros Hf (m & Hm & HP). destruct (decide (j = i)) as [->|Hne].
  - exists (f m). rewrite list_lookup_alter_eq, Hm. by split; [|apply Hf].
  - exists m. by rewrite list_lookup_alter_ne.
Qed.

(** X23: when the box, the door, its frame, its handle and the door
    container are all loaded, the [then] callback of [addAnchorAtPosition]
    completes: the door is marked as placed, the container is moved to the
    picked point and attached to the anchor, a new transform node under the
    container becomes the parent of the box, and box, door, frame and handle
    are visible; no anchor is requested. *)
Theorem anchor_created_places_door raycastHit anchor x b d f h c :
  Door._box x = Some b ->
  Door._door x = Some d ->
  Door._doorFrame x = Some f ->
  Door._handle x = Some h ->
  Door._doorContainer x = Some c ->
  b < length (Door.meshes x) -> d < length (Door.meshes x) ->
  f < length (Door.meshes x) -> h < length (Door.meshes x) ->
  c < length (Door.meshes x) ->
  exists x',
    Door.onAnchorCreated raycastHit anchor x = (Normal tt, x') /\
    Door._doorIsPlaced x' = true /\
    Door.anchorRequests x' = Door.anchorRequests x /\
    Door.attachedNodes x' = Door.attachedNodes x ++ [(anchor, c)] /\
    Door.transformNodes x' = Door.transformNodes x ++ [Some c] /\
    (exists m, Door.meshes x' !! c = Some m /\
               Door.position m = Door.pickedPoint raycastHit) /\
    (forall r, r = b \/ r = d \/ r = f \/ r = h ->
       exists m, Door.meshes x' !! r = Some m /\ Door.isVisible m = true) /\
    (exists m, Door.meshes x' !! b = Some m /\
               Door.parent m =
                 Some (Door.ParentTransformNode (length (Door.transformNodes x)))).
Proof.
  intros Hb Hd Hf Hh Hc Lb Ld Lf Lh Lc. eexists. unfold Door.onAnchorCreated.
  repeat first
    [ door_step
    | progress cbn [Door._box Door._door Door._doorFrame Door._handle Door._doorContainer
                    Door.set_transformNodes Door.set_meshes Door.set_attachedNodes]
    | rewrite Hb | rewrite Hd | rewrite Hf | rewrite Hh | rewrite Hc ].
  split; [reflexivity|]. cbn.
  split; [reflexivity|]. split; [reflexivity|]. split; [reflexivity|].
  split.
  { rewrite <- (Nat.add_0_r (length (Door.transformNodes x))).
    by rewrite insert_app_r. }
  split.
  { apply (lookup_alter_sets (fun m => Door.position m = Door.pickedPoint raycastHit));
      [done|]. by rewrite !length_alter. }
  split.
  - intros r Hr.
    do 2 (apply (lookup_alter_keeps (fun m => Door.isVisible m = true)); [done|]).
    destruct (decide (r = h)) as [->|Hrh].
    { apply (lookup_alter_sets (fun m => Door.isVisible m = true)); [done|].
      by rewrite !length_alter. }
    apply (lookup_alter_keeps (fun m => Door.isVisible m = true)); [done|].
    destruct (decide (r = f)) as [->|Hrf].
    { apply (lookup_alter_sets (fun m => Door.isVisible m = true)); [done|].
      by rewrite !length_alter. }
    apply (lookup_alter_keeps (fun m => Door.isVisible m = true)); [done|].
    destruct (decide (r = d)) as [->|Hrd].
    { apply (lookup_alter_sets (fun m => Door.isVisible m = true)); [done|].
      by rewrite !length_alter. }
    apply (lookup_alter_keeps (fun m => Door.isVisible m = true)); [done|].
    assert (r = b) as -> by (destruct Hr as [?|[?|[?|?]]]; congruence).
    apply (lookup_alter_sets (fun m => Door.isVisible m = true)); [done|].
    by rewrite !length_alter.
  - do 7 (apply (lookup_alter_keeps
                   (fun m => Door.parent m =
                      Some (Door.ParentTransformNode (length (Door.transformNodes x)))));
          [done|]).
    by apply (lookup_alter_sets
                (fun m => Door.parent m =
                   Some (Door.ParentTransformNode (length (Door.transformNodes x))))).
Qed.

Lemma anchor_created_places_door_witness :
  let mesh nm := Door.mkAbstractMesh nm false (Some origin) None None None [] in
  let x := Door.mkXrExperience
             [mesh "box"; mesh "Door"; mesh "Door_frame"; mesh "Handle"; mesh "__root__"]
             [] [] true None (Some 0) (Some 1) (Some 2) (Some 3) (Some 4)
             false false [] [] [] in
  let raycastHit := Door.mkPickingInfo true (Some 9) (Some east) in
  exists x',
    Door.onAnchorCreated raycastHit 7 x = (Normal tt, x') /\
    Door._doorIsPlaced x' = true /\
    Door.anchorRequests x' = Door.anchorRequests x /\
    Door.attachedNodes x' = Door.attachedNodes x ++ [(7, 4)] /\
    Door.transformNodes x' = Door.transformNodes x ++ [Some 4] /\
    (exists m, Door.meshes x' !! 4 = Some m /\
               Door.position m = Door.pickedPoint raycastHit) /\
    (forall r, r = 0 \/ r = 1 \/ r = 2 \/ r = 3 ->
       exists m, Door.meshes x' !! r = Some m /\ Door.isVisible m = true) /\
    (exists m, Door.meshes x' !! 0 = Some m /\
               Door.parent m =
                 Some (Door.ParentTransformNode (length (Door.transformNodes x)))).
Proof.
  apply (anchor_created_places_door (Door.mkPickingInfo true (Some 9) (Some east)) 7
           (Door.mkXrExperience
              [Door.mkAbstractMesh "box" false (Some origin) None None None [];
               Door.mkAbstractMesh "Door" false (Some origin) None None None [];
               Door.mkAbstractMesh "Door_frame" false (Some origin) None None None [];
               Door.mkAbstractMesh "Handle" false (Some origin) None None None [];
               Door.mkAbstractMesh "__root__" false (Some origin) None None None []]
              [] [] true None (Some 0) (Some 1) (Some 2) (Some 3) (Some 4)
              false false [] [] [])
           0 1 2 3 4); try reflexivity; cbn; lia.
Defined.
